(** * SCADA dashboard (app1.py): serial exchange, sample store and views

    A shallow embedding of [src/app1.py].  The script is a Streamlit page
    that talks to a microcontroller over a serial line.  Its effects (the
    serial link, the wall clock, the session state and the rendered page)
    are threaded through a state-and-exception monad over a [World]; what
    the environment decides (what the device answers, how long it takes,
    whether the link fails, which button was clicked) is part of the
    [World], so every theorem quantifies over all device and operator
    behaviours. *)

From Stdlib Require Import ZArith NArith List String Ascii Bool Lia.
From Stdlib Require Import Floats DecimalNat DecimalString Sorted.
Import ListNotations.
Open Scope string_scope.

(** ** Python values *)

(** A Python [str] is held as its UTF-8 encoding, a [bytes] object as its
    bytes: both are Rocq strings.  [str.encode()] is then the identity and
    [bytes.decode()] is the strict UTF-8 validity check. *)
Definition str := string.
Definition bytes := string.

Inductive Exn : Type :=
| ValueError
| UnicodeDecodeError
| IndexError
| AttributeError
| SerialException.

(** [except ValueError] also catches [UnicodeDecodeError], its subclass. *)
Definition is_ValueError (e : Exn) : bool :=
  match e with
  | ValueError | UnicodeDecodeError => true
  | _ => false
  end.

Definition encode (s : str) : bytes := s.

Definition cont (b : N) : bool := ((128 <=? b) && (b <=? 191))%N.
Definition between (lo hi b : N) : bool := ((lo <=? b) && (b <=? hi))%N.

(** Strict UTF-8: no overlong forms, no surrogates, nothing above U+10FFFF. *)
Fixpoint valid_utf8 (bs : list N) : bool :=
  match bs with
  | [] => true
  | b0 :: r0 =>
    if (b0 <? 128)%N then valid_utf8 r0
    else match r0 with
    | [] => false
    | b1 :: r1 =>
      if between 194 223 b0 then cont b1 && valid_utf8 r1
      else match r1 with
      | [] => false
      | b2 :: r2 =>
        if (b0 =? 224)%N then between 160 191 b1 && cont b2 && valid_utf8 r2
        else if (b0 =? 237)%N then between 128 159 b1 && cont b2 && valid_utf8 r2
        else if between 225 239 b0 then cont b1 && cont b2 && valid_utf8 r2
        else match r2 with
        | [] => false
        | b3 :: r3 =>
          if (b0 =? 240)%N
          then between 144 191 b1 && cont b2 && cont b3 && valid_utf8 r3
          else if between 241 243 b0
          then cont b1 && cont b2 && cont b3 && valid_utf8 r3
          else if (b0 =? 244)%N
          then between 128 143 b1 && cont b2 && cont b3 && valid_utf8 r3
          else false
        end
      end
    end
  end.

Definition codes (s : string) : list N := map N_of_ascii (list_ascii_of_string s).

Definition decode (b : bytes) : option str :=
  if valid_utf8 (codes b) then Some b else None.

(** The characters [str.strip()] removes, in UTF-8: the ASCII controls
    9-13 and 28-31, the space, and the non-ASCII white space of Unicode
    (U+0085, U+00A0, U+1680, U+2000-200A, U+2028, U+2029, U+202F, U+205F,
    U+3000). *)
Definition ascii_space (b : N) : bool :=
  between 9 13 b || between 28 32 b.

Definition space2 (b0 b1 : N) : bool :=
  (b0 =? 194)%N && ((b1 =? 133) || (b1 =? 160))%N.

Definition space3 (b0 b1 b2 : N) : bool :=
  ((b0 =? 225) && (b1 =? 154) && (b2 =? 128))%N
  || ((b0 =? 226)%N && (b1 =? 128)%N
      && (between 128 138 b2 || between 168 169 b2 || (b2 =? 175)%N))
  || ((b0 =? 226) && (b1 =? 129) && (b2 =? 159))%N
  || ((b0 =? 227) && (b1 =? 128) && (b2 =? 128))%N.

Fixpoint lstrip_codes (bs : list N) : list N :=
  match bs with
  | b0 :: r0 =>
    if ascii_space b0 then lstrip_codes r0
    else match r0 with
    | b1 :: r1 =>
      if space2 b0 b1 then lstrip_codes r1
      else match r1 with
      | b2 :: r2 => if space3 b0 b1 b2 then lstrip_codes r2 else bs
      | [] => bs
      end
    | [] => bs
    end
  | [] => []
  end.

(** The same from the right, on the reversed bytes. *)
Fixpoint rstrip_rev (bs : list N) : list N :=
  match bs with
  | b0 :: r0 =>
    if ascii_space b0 then rstrip_rev r0
    else match r0 with
    | b1 :: r1 =>
      if space2 b1 b0 then rstrip_rev r1
      else match r1 with
      | b2 :: r2 => if space3 b2 b1 b0 then rstrip_rev r2 else bs
      | [] => bs
      end
    | [] => bs
    end
  | [] => []
  end.

Definition of_codes (bs : list N) : string :=
  string_of_list_ascii (map ascii_of_N bs).

Definition strip (s : str) : str :=
  of_codes (rev (rstrip_rev (rev (lstrip_codes (codes s))))).

(** [str.split(sep)] for a one-character separator: never an empty list. *)
Fixpoint split (sep : ascii) (s : str) : list str :=
  match s with
  | EmptyString => [EmptyString]
  | String c s' =>
    if Ascii.eqb c sep then EmptyString :: split sep s'
    else match split sep s' with
         | h :: t => String c h :: t
         | [] => [String c EmptyString]
         end
  end.

(** Truth value of a [str]: non-empty. *)
Definition truthy (s : str) : bool :=
  match s with EmptyString => false | _ => true end.

(** [f"{i}"] for a non-negative [int]. *)
Definition fmt_int (i : nat) : str := NilZero.string_of_uint (Nat.to_uint i).

(** ** Data model *)

(** A row of [st.session_state.data]: [pd.Timestamp.now()] in nanoseconds
    and the measured current, a binary64 float. *)
Record Sample : Type := mkSample {
  timestamp : N;
  current : float
}.

(** The data frame of the session, row by row in index order. *)
Definition DataFrame := list Sample.

(** The dtype of the [current] column: [object] for a column pandas has no
    values to infer a dtype from, as in [pd.DataFrame(columns=[...])], and
    [float64] for a column made from floats.  (The [timestamp] column goes
    the same way, [object] or [datetime64].) *)
Inductive Dtype : Type :=
| object_dtype
| float64.

(** A pandas frame: the dtype of its column and its rows. *)
Record Frame : Type := mkFrame {
  dtype : Dtype;
  rows : DataFrame
}.

(** The dtype that holds the values of both columns: [object] takes in
    everything. *)
Definition common_dtype (a b : Dtype) : Dtype :=
  match a, b with
  | float64, float64 => float64
  | _, _ => object_dtype
  end.

(** [pd.DataFrame(columns=['timestamp', 'current'])]. *)
Definition empty_frame : Frame := mkFrame object_dtype [].

(** [pd.DataFrame({'timestamp': [t], 'current': [x]})] for a float [x]. *)
Definition new_data (t : N) (x : float) : Frame :=
  mkFrame float64 [mkSample t x].

(** [pd.concat([a, b], ignore_index=True)]: the rows of [a], then of [b];
    the dtype is the common dtype of the two columns, that of an empty frame
    included (the rule of pandas 3; up to pandas 2 an empty frame was left
    out of it, from 2.1 on with a FutureWarning). *)
Definition pd_concat (a b : Frame) : Frame :=
  mkFrame (common_dtype (dtype a) (dtype b)) (rows a ++ rows b)%list.

(** The handle [serial.Serial(port, baudrate, timeout=...)] returns. *)
Record Serial : Type := mkSerial {
  port : str;
  baudrate : N;
  timeout : N
}.

Definition SERIAL_PORT : str := "/dev/tty.usbmodem141201".
Definition BAUD_RATE : N := 9600.
Definition TIMEOUT : N := 1.

(** One answer of the device: what a [readline()] returns and how long the
    call blocks, in nanoseconds. *)
Record Reply : Type := mkReply {
  latency : N;
  payload : bytes
}.

(** What happened on the serial line and in [time.sleep]. *)
Inductive IOEvent : Type :=
| SerialWrite (b : bytes)
| Sleep (ns : N)
| SerialReadline (b : bytes).

(** The result of [df.describe()] for a [current] column of dtype
    [float64]. *)
Record Describe : Type := mkDescribe {
  d_count : nat;
  d_mean : float;
  d_std : float;
  d_min : float;
  d_q25 : float;
  d_q50 : float;
  d_q75 : float;
  d_max : float
}.

(** The result of [df.describe()] for a [current] column of dtype [object]:
    the rows [count], [unique], [top] and [freq]; the last two are NaN
    ([None]) when the column has no value. *)
Record Counts : Type := mkCounts {
  c_count : nat;
  c_unique : nat;
  c_top : option float;
  c_freq : option nat
}.

(** What [df.describe()] gives, by the dtype of the column. *)
Inductive Summary : Type :=
| Numeric (d : Describe)
| Categorical (c : Counts).

(** A container made by [st.columns]: the block (the position on the page
    of the [Columns] element) and the slot in it. *)
Record Column : Type := mkColumn {
  block : nat;
  slot : nat
}.

(** What a run renders, in the order of the calls. *)
Inductive Element : Type :=
| PageConfig (title icon : str)
| Title (s : str)
| Markdown (s : str)
| OptionMenu (options : list str)
| Subheader (s : str)
| Text (s : str)
| ErrorBox (s : str)
| Metric (label value : str)
| Button (key label : str)
| Columns (n : nat)
| InColumn (c : Column) (e : Element)
| CurrentChart (df : DataFrame)
| DataChart (df : DataFrame)
| Table (df : DataFrame)
| Statistics (d : Summary).

(** The state a run works on.  [clock], [rx], [open_error], [clicked],
    [selected] and [outages] are the environment's: the wall clock
    (nanoseconds, never set back), the answers the device will give to the
    coming [readline] calls, the message of the [SerialException] when the
    port cannot be opened, the key of the button whose click started this
    run, the tab of the option menu and, for each coming call of
    [ser.write] or [ser.readline] in turn, whether the link fails under it
    (no failure once the list is used up).  [io] is the trace of the serial
    line, [conn_cache] the entry of [st.cache_resource] for
    [get_serial_connection] (the value and the elements replayed on a hit),
    [data] holds the rows of [st.session_state.data] ([None] while the key
    is absent) and [data_dtype] the dtype of its column, [page] what the run
    has rendered. *)
Record World : Type := makeWorld {
  clock : N;
  rx : list Reply;
  open_error : option str;
  clicked : option str;
  selected : str;
  io : list IOEvent;
  conn_cache : option (option Serial * list Element);
  data : option DataFrame;
  page : list Element;
  outages : list bool;
  data_dtype : Dtype
}.

(** A world whose link never fails and whose frame, where it has one, is
    of dtype [object], as the script builds it. *)
Definition mkWorld (t : N) (replies : list Reply) (oe ck : option str)
           (sel : str) (tr : list IOEvent)
           (cc : option (option Serial * list Element))
           (d : option DataFrame) (pg : list Element) : World :=
  makeWorld t replies oe ck sel tr cc d pg [] object_dtype.

Definition set_clock (t : N) (w : World) : World :=
  makeWorld t (rx w) (open_error w) (clicked w) (selected w) (io w)
            (conn_cache w) (data w) (page w) (outages w) (data_dtype w).
Definition set_rx (r : list Reply) (w : World) : World :=
  makeWorld (clock w) r (open_error w) (clicked w) (selected w) (io w)
            (conn_cache w) (data w) (page w) (outages w) (data_dtype w).
Definition set_io (l : list IOEvent) (w : World) : World :=
  makeWorld (clock w) (rx w) (open_error w) (clicked w) (selected w) l
            (conn_cache w) (data w) (page w) (outages w) (data_dtype w).
Definition set_conn_cache (c : option (option Serial * list Element))
           (w : World) : World :=
  makeWorld (clock w) (rx w) (open_error w) (clicked w) (selected w) (io w)
            c (data w) (page w) (outages w) (data_dtype w).
Definition set_data (d : option DataFrame) (w : World) : World :=
  makeWorld (clock w) (rx w) (open_error w) (clicked w) (selected w) (io w)
            (conn_cache w) d (page w) (outages w) (data_dtype w).
Definition set_page (p : list Element) (w : World) : World :=
  makeWorld (clock w) (rx w) (open_error w) (clicked w) (selected w) (io w)
            (conn_cache w) (data w) p (outages w) (data_dtype w).
Definition set_outages (o : list bool) (w : World) : World :=
  makeWorld (clock w) (rx w) (open_error w) (clicked w) (selected w) (io w)
            (conn_cache w) (data w) (page w) o (data_dtype w).
Definition set_data_dtype (t : Dtype) (w : World) : World :=
  makeWorld (clock w) (rx w) (open_error w) (clicked w) (selected w) (io w)
            (conn_cache w) (data w) (page w) (outages w) t.

(** ** The monad of a run: state and Python exceptions *)

Inductive Outcome (A : Type) : Type :=
| Ok (a : A)
| Raise (e : Exn).
Arguments Ok {A} a.
Arguments Raise {A} e.

Definition M (A : Type) : Type := World -> Outcome A * World.

Definition ret {A : Type} (a : A) : M A := fun w => (Ok a, w).

Definition raise {A : Type} (e : Exn) : M A := fun w => (Raise e, w).

Definition bind {A B : Type} (m : M A) (k : A -> M B) : M B :=
  fun w =>
    match m w with
    | (Ok a, w1) => k a w1
    | (Raise e, w1) => (Raise e, w1)
    end.

Notation "x <- m ;; k" := (bind m (fun x => k))
  (at level 61, m at next level, right associativity).
Notation "m ;; k" := (bind m (fun _ => k))
  (at level 61, right associativity).

(** [try: body except <class>: handler]; what the body did to the world
    before it raised stays done. *)
Definition try_except {A : Type} (body : M A) (catches : Exn -> bool)
           (handler : M A) : M A :=
  fun w =>
    match body w with
    | (Ok a, w1) => (Ok a, w1)
    | (Raise e, w1) => if catches e then handler w1 else (Raise e, w1)
    end.

(** [for x in l: body x]. *)
Fixpoint for_each {A : Type} (l : list A) (body : A -> M unit) : M unit :=
  match l with
  | [] => ret tt
  | x :: r => body x ;; for_each r body
  end.

Definition range (n : nat) : list nat := seq 0 n.

Definition enumerate {A : Type} (l : list A) : list (nat * A) :=
  combine (seq 0 (List.length l)) l.

(** [l[i]] for [i >= 0]: [IndexError] past the end. *)
Definition getitem {A : Type} (l : list A) (i : nat) : M A :=
  match nth_error l i with
  | Some x => ret x
  | None => raise IndexError
  end.

(** ** The primitives the script calls *)

Definition emit (e : Element) : M unit :=
  fun w => (Ok tt, set_page (page w ++ [e])%list w).

Definition st_title (s : str) : M unit := emit (Title s).
Definition st_markdown (s : str) : M unit := emit (Markdown s).
Definition st_subheader (s : str) : M unit := emit (Subheader s).
Definition st_write (s : str) : M unit := emit (Text s).
Definition st_error (s : str) : M unit := emit (ErrorBox s).
Definition st_metric (label value : str) : M unit := emit (Metric label value).

(** [st.button(label, key=key)]: true in the run its click started. *)
Definition was_clicked (key : str) (w : World) : bool :=
  match clicked w with
  | Some k => String.eqb k key
  | None => false
  end.

Definition st_button (key label : str) : M bool :=
  fun w => (Ok (was_clicked key w), set_page (page w ++ [Button key label])%list w).

(** [st.columns(n)]: [n] containers side by side. *)
Definition st_columns (n : nat) : M (list Column) :=
  fun w => (Ok (map (mkColumn (List.length (page w))) (seq 0 n)),
            set_page (page w ++ [Columns n])%list w).

Definition col_button (c : Column) (label : str) : M bool :=
  fun w => (Ok (was_clicked label w),
            set_page (page w ++ [InColumn c (Button label label)])%list w).

Definition col_write (c : Column) (s : str) : M unit :=
  emit (InColumn c (Text s)).

(** Whether the link fails under the coming call of the serial port, and
    the world once that call is over. *)
Definition link_fails (w : World) : bool := hd false (outages w).

Definition next_call (w : World) : World := set_outages (tl (outages w)) w.

(** [ser.write(b)]: the bytes go out, or the call raises
    [serial.SerialException] when the link fails (the device unplugged, the
    port gone) and nothing is written. *)
Definition ser_write (s : Serial) (b : bytes) : M unit :=
  fun w =>
    if link_fails w then (Raise SerialException, next_call w)
    else (Ok tt, set_io (io w ++ [SerialWrite b])%list (next_call w)).

(** [time.sleep(seconds)], the duration in nanoseconds. *)
Definition time_sleep (ns : N) : M unit :=
  fun w => (Ok tt, set_io (io w ++ [Sleep ns])%list (set_clock (clock w + ns) w)).

(** [ser.readline()]: the next answer of the device after its latency, or
    nothing once the read timeout (in seconds) has passed; when the link
    fails the call raises [serial.SerialException] and nothing is read. *)
Definition ser_readline (s : Serial) : M bytes :=
  fun w =>
    if link_fails w then (Raise SerialException, next_call w)
    else
      match rx w with
      | r :: rest =>
        (Ok (payload r),
         set_io (io w ++ [SerialReadline (payload r)])%list
                (set_rx rest (set_clock (clock w + latency r) (next_call w))))
      | [] =>
        (Ok EmptyString,
         set_io (io w ++ [SerialReadline EmptyString])%list
                (set_clock (clock w + timeout s * 1000000000) (next_call w)))
      end.

Definition bytes_decode (b : bytes) : M str :=
  match decode b with
  | Some s => ret s
  | None => raise UnicodeDecodeError
  end.

(** [pd.Timestamp.now()]. *)
Definition Timestamp_now : M N := fun w => (Ok (clock w), w).

(** [st.session_state.data], read for its rows. *)
Definition get_data : M DataFrame :=
  fun w =>
    match data w with
    | Some df => (Ok df, w)
    | None => (Raise AttributeError, w)
    end.

(** The frame with its dtype, read and assigned. *)
Definition get_frame : M Frame :=
  fun w =>
    match data w with
    | Some df => (Ok (mkFrame (data_dtype w) df), w)
    | None => (Raise AttributeError, w)
    end.

Definition put_frame (fr : Frame) : M unit :=
  fun w => (Ok tt, set_data_dtype (dtype fr) (set_data (Some (rows fr)) w)).

(** ** app1.py *)

(** [get_serial_connection], under [st.cache_resource]: the body runs on
    the first call of the process; later calls return the cached value and
    replay what the body rendered. *)
Definition open_serial : M (option Serial) :=
  fun w =>
    match open_error w with
    | None => (Ok (Some (mkSerial SERIAL_PORT BAUD_RATE TIMEOUT)), w)
    | Some e => bind (st_error ("Error: " ++ e)) (fun _ => ret None) w
    end.

Definition get_serial_connection : M (option Serial) :=
  fun w =>
    match conn_cache w with
    | Some (ser, shown) => (Ok ser, set_page (page w ++ shown)%list w)
    | None =>
      match open_serial w with
      | (Ok ser, w1) =>
        (Ok ser,
         set_conn_cache (Some (ser, skipn (List.length (page w)) (page w1))) w1)
      | (Raise e, w1) => (Raise e, w1)
      end
    end.

(** [send_command(ser, command)]. *)
Definition send_command (ser : option Serial) (command : str) : M str :=
  match ser with
  | Some s =>
    ser_write s (encode command) ;;
    time_sleep 100000000 ;;
    line <- ser_readline s ;;
    text <- bytes_decode line ;;
    ret (strip text)
  | None => ret "Error: No serial connection"
  end.

(** [initialize_session_state]. *)
Definition initialize_session_state : M unit :=
  fun w =>
    match data w with
    | None => put_frame empty_frame w
    | Some _ => (Ok tt, w)
    end.

(** ** Floats: formatting and statistics *)

(** [num / den] rounded to the nearest integer, ties to even. *)
Definition round_half_even (num den : Z) : Z :=
  let q := (num / den)%Z in
  let r := (num mod den)%Z in
  if (2 * r <? den)%Z then q
  else if (den <? 2 * r)%Z then (q + 1)%Z
  else if Z.even q then q else (q + 1)%Z.

Definition fmt_Z (z : Z) : str := NilZero.string_of_uint (N.to_uint (Z.to_N z)).

Definition sign_str (negative : bool) : str := if negative then "-" else "".

(** [f"{x:.2f}"]: the exact binary value rounded to hundredths, ties to
    even, with two digits after the point; [inf] and [nan] by name. *)
Definition format_2f (x : float) : str :=
  match Prim2SF x with
  | S754_nan => "nan"
  | S754_infinity s => sign_str s ++ "inf"
  | S754_zero s => sign_str s ++ "0.00"
  | S754_finite s m e =>
    let h := if (0 <=? e)%Z then (Zpos m * 2 ^ e * 100)%Z
             else round_half_even (Zpos m * 100) (2 ^ (- e)) in
    let frac := (h mod 100)%Z in
    sign_str s ++ fmt_Z (h / 100) ++ "."
      ++ (if (frac <? 10)%Z then "0" else "") ++ fmt_Z frac
  end.

Definition float_of_nat (n : nat) : float :=
  PrimFloat.of_uint63 (Uint63.of_Z (Z.of_nat n)).

(** The statistics skip NaN, as pandas does. *)
Definition dropna (xs : list float) : list float :=
  filter (fun x => PrimFloat.eqb x x) xs.

Definition fsum (xs : list float) : float :=
  match xs with
  | [] => 0%float
  | x :: r => fold_left PrimFloat.add r x
  end.

Definition fmean (xs : list float) : float :=
  match xs with
  | [] => nan
  | _ => (fsum xs / float_of_nat (List.length xs))%float
  end.

(** Sample standard deviation (one degree of freedom taken off). *)
Definition fstd (xs : list float) : float :=
  if (List.length xs <=? 1)%nat then nan
  else
    let avg := fmean xs in
    let sqr := fsum (map (fun x => ((avg - x) * (avg - x))%float) xs) in
    PrimFloat.sqrt (sqr / float_of_nat (List.length xs - 1))%float.

Definition fmin (xs : list float) : float :=
  match xs with
  | [] => nan
  | x :: r => fold_left (fun m y => if PrimFloat.ltb y m then y else m) r x
  end.

Definition fmax (xs : list float) : float :=
  match xs with
  | [] => nan
  | x :: r => fold_left (fun m y => if PrimFloat.ltb m y then y else m) r x
  end.

Fixpoint insert_sorted (x : float) (l : list float) : list float :=
  match l with
  | [] => [x]
  | y :: r => if PrimFloat.leb x y then x :: l else y :: insert_sorted x r
  end.

Definition fsort (xs : list float) : list float :=
  fold_right insert_sorted [] xs.

(** The largest [k <= n] with [k <= x], for [0 <= x]. *)
Fixpoint floor_upto (x : float) (n : nat) : nat :=
  match n with
  | O => O
  | S k => if PrimFloat.leb (float_of_nat n) x then n else floor_upto x k
  end.

(** Linear interpolation between neighbours, as numpy computes it. *)
Definition lerp (a b t : float) : float :=
  let d := (b - a)%float in
  if PrimFloat.leb 0.5 t then (b - d * (1 - t))%float else (a + d * t)%float.

(** The quantile [q] of the values, linear interpolation at [(n-1) * q]. *)
Definition quantile (xs : list float) (q : float) : float :=
  match fsort xs with
  | [] => nan
  | sorted =>
    let n := List.length sorted in
    let idx := (float_of_nat (n - 1) * q)%float in
    let lo := floor_upto idx (n - 1) in
    let hi := Nat.min (lo + 1) (n - 1) in
    lerp (nth lo sorted nan) (nth hi sorted nan) (idx - float_of_nat lo)%float
  end.

(** [describe] of a [float64] column. *)
Definition describe_numeric (col : list float) : Describe :=
  let xs := dropna col in
  mkDescribe (List.length xs) (fmean xs) (fstd xs) (fmin xs)
             (quantile xs 0.25) (quantile xs 0.5) (quantile xs 0.75)
             (fmax xs).

(** [value_counts] before it is sorted: the distinct values in the order
    they first appear, each with the number of its occurrences. *)
Fixpoint tally (x : float) (seen : list (float * nat)) : list (float * nat) :=
  match seen with
  | [] => [(x, 1%nat)]
  | (y, n) :: r =>
    if PrimFloat.eqb x y then (y, S n) :: r else (y, n) :: tally x r
  end.

Definition value_counts (xs : list float) : list (float * nat) :=
  fold_left (fun seen x => tally x seen) xs [].

(** The head of the sorted [value_counts]: the most frequent value; of
    several with the same count the one that appeared first, which is the
    order the sort leaves on the short columns of the examples. *)
Definition most_frequent (seen : list (float * nat)) : option (float * nat) :=
  match seen with
  | [] => None
  | p :: r =>
    Some (fold_left (fun best q => if (snd best <? snd q)%nat then q else best)
                    r p)
  end.

(** [describe] of an [object] column. *)
Definition describe_object (col : list float) : Counts :=
  let xs := dropna col in
  let seen := value_counts xs in
  mkCounts (List.length xs) (List.length seen)
           (option_map fst (most_frequent seen))
           (option_map snd (most_frequent seen)).

(** [df.describe()], the [current] column: the numeric statistics for a
    numeric column; a frame of [object] columns only gets the counts. *)
Definition describe (df : Frame) : Summary :=
  match dtype df with
  | float64 => Numeric (describe_numeric (map current (rows df)))
  | object_dtype => Categorical (describe_object (map current (rows df)))
  end.

(** [df.empty]: no row. *)
Definition df_empty (df : DataFrame) : bool :=
  match df with [] => true | _ => false end.

(** [column.iloc[-1]]. *)
Definition iloc_last {A : Type} (col : list A) : M A :=
  getitem (rev col) 0.

(** A parser of plain decimal numerals ([-12.5], [3], [0.25]), exact for
    up to 15 digits: an instance of [float] for the examples below; the
    development itself takes Python's [float] as a parameter. *)
Fixpoint digits_value (s : string) (acc : Z) : option Z :=
  match s with
  | EmptyString => Some acc
  | String c r =>
    let d := N_of_ascii c in
    if between 48 57 d then digits_value r (10 * acc + Z.of_N (d - 48))%Z
    else None
  end.

Definition float_of_Z (z : Z) : float := PrimFloat.of_uint63 (Uint63.of_Z z).

Definition unsigned_decimal (s : string) : option float :=
  match split "." s with
  | [i] =>
    if (0 <? String.length i)%nat && (String.length i <=? 15)%nat then
      option_map float_of_Z (digits_value i 0)
    else None
  | [i; f] =>
    if (0 <? String.length i)%nat
       && (String.length i + String.length f <=? 15)%nat then
      match digits_value (i ++ f) 0 with
      | Some v => Some (float_of_Z v / float_of_Z (10 ^ Z.of_nat (String.length f)))%float
      | None => None
      end
    else None
  | _ => None
  end.

Definition plain_decimal (s : str) : option float :=
  match s with
  | String "-" r => option_map PrimFloat.opp (unsigned_decimal r)
  | _ => unsigned_decimal s
  end.

(** [display_current_reading]. *)
Definition display_current_reading : M unit :=
  df <- get_data ;;
  if negb (df_empty df) then
    latest_current <- iloc_last (map current df) ;;
    st_metric "Current" (format_2f latest_current ++ " A")
  else ret tt.

(** [display_current_chart]: the line chart of the whole frame. *)
Definition display_current_chart : M unit :=
  df <- get_data ;;
  if negb (df_empty df) then emit (CurrentChart df) else ret tt.

Section App.

(** Python's [float(s)] on a [str]: the number, or [None] where it raises
    [ValueError]. *)
Variable float_of_str : str -> option float.

Definition py_float (s : str) : M float :=
  match float_of_str s with
  | Some x => ret x
  | None => raise ValueError
  end.

(** [read_current(ser)]. *)
Definition read_current (ser : option Serial) : M unit :=
  current_str <- send_command ser "READ" ;;
  try_except
    (current <- py_float current_str ;;
     now <- Timestamp_now ;;
     old <- get_frame ;;
     put_frame (pd_concat old (new_data now current)))
    is_ValueError
    (st_error ("Invalid current reading: " ++ current_str)).

(** [system_control], lines 105-107: the body of the loop over the toggle
    buttons. *)
Definition toggle_body (ser : option Serial) (cols : list Column) (i : nat)
  : M unit :=
  c <- getitem cols i ;;
  pressed <- col_button c ("Button " ++ fmt_int i) ;;
  if pressed : bool then
    response <- send_command ser ("TOGGLE" ++ fmt_int i) ;;
    st_write ("Control System Response: " ++ response)
  else ret tt.

(** [system_control], lines 102-107: the five toggle buttons. *)
Definition bulb_control (ser : option Serial) : M unit :=
  st_subheader "Bulb Control" ;;
  cols <- st_columns 5 ;;
  for_each (range 5) (toggle_body ser cols).

(** [system_control], lines 110-115: the status query and its display. *)
Definition status_display (ser : option Serial) : M unit :=
  status <- send_command ser "STATUS" ;;
  if truthy status then
    let states := split "," status in
    status_cols <- st_columns 5 ;;
    for_each (enumerate states) (fun '(i, state) =>
      c <- getitem status_cols i ;;
      col_write c ("BULD-BUTTON " ++ fmt_int i ++ ": " ++ state))
  else ret tt.

(** [system_control], lines 117-121, and the body of
    [current_monitoring]. *)
Definition monitoring (ser : option Serial) : M unit :=
  st_subheader "Current Monitoring" ;;
  pressed <- st_button "Read Current" "Read Current" ;;
  (if pressed : bool then read_current ser else ret tt) ;;
  display_current_reading ;;
  display_current_chart.

Definition system_control (ser : option Serial) : M unit :=
  bulb_control ser ;;
  st_subheader "Bulb Status" ;;
  status_display ser ;;
  monitoring ser.

Definition current_monitoring (ser : option Serial) : M unit :=
  monitoring ser.

(** [data_analytics]. *)
Definition data_analytics : M unit :=
  st_subheader "Data Analytics and Reporting" ;;
  d <- get_data ;;
  if df_empty d then st_write "No data available for analytics."
  else
    df <- get_frame ;;
    st_write "Data Overview" ;;
    emit (Table (rows df)) ;;
    st_write "Data Chart" ;;
    emit (DataChart (rows df)) ;;
    st_write "Summary Statistics" ;;
    emit (Statistics (describe df)).

Definition option_menu (options : list str) : M str :=
  fun w => (Ok (selected w), set_page (page w ++ [OptionMenu options])%list w).

(** [main]. *)
Definition main : M unit :=
  st_title "UNIVERSITY SCADA DASHBOARD" ;;
  st_markdown "Monitor and Control System Parameters" ;;
  ser <- get_serial_connection ;;
  initialize_session_state ;;
  sel <- option_menu
    ["System Control"; "Current Monitoring"; "Report and Data Analytics"] ;;
  (if String.eqb sel "Current Monitoring" then current_monitoring ser
   else if String.eqb sel "System Control" then system_control ser
   else if String.eqb sel "Report and Data Analytics" then data_analytics
   else st_error "Invalid selection") ;;
  st_subheader "Power Control" ;;
  pressed <- st_button "power_button" "Toggle Power" ;;
  if pressed : bool then
    response <- send_command ser "POWER" ;;
    st_write ("Power Control Response: " ++ response)
  else ret tt.

Definition hide_st_style : str := "
    <style>
    #MainMenu {visibility: hidden;}
    footer {visibility: hidden;}
    header {visibility: hidden;}
    </style>
".

(** The script from its first line: page configuration, style, [main]. *)
Definition script : M unit :=
  emit (PageConfig "UNIVERSITY SCADA DASHBOARD" ":bar_chart:") ;;
  st_markdown hide_st_style ;;
  main.

(** What starts a run: the time since the last one, what the device has
    sent meanwhile, the click and the tab. *)
Record RunInput : Type := mkRunInput {
  idle : N;
  arrivals : list Reply;
  click : option str;
  tab : str
}.

(** One run of the script in a session.  An exception ends the run (the page
    shows it); the session state and the process stay. *)
Definition rerun (w : World) (i : RunInput) : World :=
  snd (script (makeWorld (clock w + idle i) (rx w ++ arrivals i)%list
                         (open_error w) (click i) (tab i) (io w)
                         (conn_cache w) (data w) []
                         (outages w) (data_dtype w))).

Definition session (w : World) (runs : list RunInput) : World :=
  fold_left rerun runs w.

End App.

(** The store of the session as a sequence: nothing before the first run. *)
Definition store (w : World) : DataFrame :=
  match data w with
  | Some df => df
  | None => []
  end.

(** Timestamps in non-decreasing order. *)
Definition chronological (df : DataFrame) : Prop :=
  Sorted (fun a b => (timestamp a <= timestamp b)%N) df.

(** A process that has just started, with a device script and an operator
    who has clicked nothing. *)
Definition fresh (t : N) (replies : list Reply) : World :=
  mkWorld t replies None None "System Control" [] None None [].

(** ** Vocabulary of the statements *)

Definition LF : str := String "010"%char EmptyString.

(** The port as [get_serial_connection] opens it. *)
Definition arduino : Serial := mkSerial SERIAL_PORT BAUD_RATE TIMEOUT.

(** Row [i] of the status display in block [b]. *)
Definition status_row (b i : nat) (state : str) : Element :=
  InColumn (mkColumn b i) (Text ("BULD-BUTTON " ++ fmt_int i ++ ": " ++ state)).

(** The rows for [states], the first of them in slot [k]. *)
Definition status_rows (b k : nat) (states : list str) : list Element :=
  map (fun '(i, state) => status_row b i state)
      (combine (seq k (List.length states)) states).

(** Toggle button [i] in block [b]. *)
Definition toggle_button (b i : nat) : Element :=
  InColumn (mkColumn b i)
           (Button ("Button " ++ fmt_int i) ("Button " ++ fmt_int i)).

Definition toggle_buttons (b from n : nat) : list Element :=
  map (toggle_button b) (seq from n).

(** A session for the examples: a process with one earlier sample, and
    three runs that each click "Read Current"; the device answers 12.5,
    then something that is no number, then the status and 3. *)
Definition demo_world : World :=
  mkWorld 5 [mkReply 7 ("12.5" ++ LF)] None None "System Control"
          [] None (Some [mkSample 2 0.5%float]) [].

Definition demo_runs : list RunInput :=
  [mkRunInput 3 [] (Some "Read Current") "Current Monitoring";
   mkRunInput 4 [mkReply 1 ("overload" ++ LF)]
              (Some "Read Current") "Current Monitoring";
   mkRunInput 9 [mkReply 1 ("ON,OFF,ON,OFF,ON" ++ LF); mkReply 2 ("3" ++ LF)]
              (Some "Read Current") "System Control"].

Definition is_digit (c : ascii) : bool := between 48 57 (N_of_ascii c).

(** The digits [format_2f] puts after the point, for [frac] hundredths. *)
Definition hundredths (frac : Z) : str :=
  (if (frac <? 10)%Z then "0" else "") ++ fmt_Z frac.

Definition two_digits (s : str) : bool :=
  match s with
  | String d1 (String d2 EmptyString) => is_digit d1 && is_digit d2
  | _ => false
  end.

(** [w'] comes after [w] in a session: the clock has not gone back and
    the store is the store of [w] followed by new samples, in time order,
    taken between the two instants. *)
Definition extends (w w' : World) : Prop :=
  (clock w <= clock w')%N
  /\ exists new : DataFrame,
      store w' = (store w ++ new)%list
      /\ chronological new
      /\ Forall (fun s => (clock w <= timestamp s <= clock w')%N) new.

(** A computation that only ever extends the world, whatever it returns or
    raises. *)
Definition steady {A : Type} (m : M A) : Prop :=
  forall w : World, extends w (snd (m w)).

(** The store is in time order and holds no sample from the future. *)
Definition sound (w : World) : Prop :=
  chronological (store w)
  /\ Forall (fun s => (timestamp s <= clock w)%N) (store w).

(** The store, where the session has one, is of dtype [object]. *)
Definition object_store (w : World) : Prop :=
  data w = None \/ data_dtype w = object_dtype.

(** A computation that leaves the store of dtype [object], whatever it
    returns or raises. *)
Definition typed {A : Type} (m : M A) : Prop :=
  forall w : World, object_store w -> object_store (snd (m w)).

(** A session for the examples: a process that has just started, a device
    that answers two READ commands with 1.0 and 3.0, and an operator who
    clicks "Read Current" twice on the "Current Monitoring" tab. *)
Definition two_reads_world : World :=
  fresh 0 [mkReply 5 ("1.0" ++ LF); mkReply 5 ("3.0" ++ LF)].

Definition two_reads : list RunInput :=
  [mkRunInput 1 [] (Some "Read Current") "Current Monitoring";
   mkRunInput 1 [] (Some "Read Current") "Current Monitoring"].

(** What the analytics tab shows for a frame and its statistics. *)
Definition analytics (df : DataFrame) (st : Summary) : list Element :=
  [Subheader "Data Analytics and Reporting";
   Text "Data Overview"; Table df;
   Text "Data Chart"; DataChart df;
   Text "Summary Statistics"; Statistics st].

(** ** Vocabulary of the further properties *)

(** A computation that only renders: the world it leaves is the world it
    found with elements added to the page. *)
Definition renders_only {A : Type} (m : M A) : Prop :=
  forall w : World,
    exists els : list Element, snd (m w) = set_page (page w ++ els)%list w.

(** How often [c] occurs in [s]. *)
Fixpoint count_char (c : ascii) (s : string) : nat :=
  match s with
  | EmptyString => 0
  | String x r => (if Ascii.eqb x c then 1 else 0) + count_char c r
  end.

(** A world in which the port could not be opened, for the examples. *)
Definition unplugged : World :=
  mkWorld 0 [] (Some "could not open port") None "System Control"
          [] None None [].

(** One exchange on the line: the command written, the pause, the line
    read. *)
Definition exchange_events (c : str) (line : bytes) : list IOEvent :=
  [SerialWrite c; Sleep 100000000; SerialReadline line].

(** The trace of a sequence of exchanges, each a command and the line
    read back. *)
Definition transcript (exs : list (str * bytes)) : list IOEvent :=
  flat_map (fun ex => exchange_events (fst ex) (snd ex)) exs.

(** What is on the line of an exchange whose read failed: the command
    written and the pause; and the command of such an exchange, if there is
    one. *)
Definition cut_short (b : option str) : list IOEvent :=
  match b with
  | Some c => [SerialWrite c; Sleep 100000000]
  | None => []
  end.

Definition attempted (b : option str) : list str :=
  match b with
  | Some c => [c]
  | None => []
  end.

(** An exchange as far as it got on the line: the command, and the line
    read back unless the read failed. *)
Definition attempt_events (a : str * option bytes) : list IOEvent :=
  match snd a with
  | Some line => exchange_events (fst a) line
  | None => cut_short (Some (fst a))
  end.

Definition attempts (l : list (str * option bytes)) : list IOEvent :=
  flat_map attempt_events l.

(** The exchanges of a run as attempts: the whole ones, then the one cut
    short. *)
Definition as_attempts (exs : list (str * bytes)) (b : option str)
  : list (str * option bytes) :=
  (map (fun ex => (fst ex, Some (snd ex))) exs
   ++ map (fun c => (c, None)) (attempted b))%list.

(** The commands of the protocol. *)
Definition vocabulary : list str :=
  ["READ"; "STATUS"; "POWER";
   "TOGGLE0"; "TOGGLE1"; "TOGGLE2"; "TOGGLE3"; "TOGGLE4"].

(** Whether the click [ck] of a run is on the button with key [key]. *)
Definition was (ck : option str) (key : str) : bool :=
  match ck with
  | Some k => String.eqb k key
  | None => false
  end.

(** What [send_command ser c] puts on the line. *)
Definition wire (ser : option Serial) (c : str) : list str :=
  match ser with
  | Some _ => [c]
  | None => []
  end.

(** The handle [get_serial_connection] gives in a world. *)
Definition handle_of (w : World) : option Serial :=
  match conn_cache w with
  | Some (ser, _) => ser
  | None =>
    match open_error w with
    | None => Some (mkSerial SERIAL_PORT BAUD_RATE TIMEOUT)
    | Some _ => None
    end
  end.

(** The commands a run sends when nothing raises, by the handle, the click
    and the tab: those of the toggle loop, of the "Read Current" button, of
    the power button, of a tab, of the whole run. *)
Definition toggle_commands (ser : option Serial) (ck : option str) : list str :=
  flat_map (fun i => if was ck ("Button " ++ fmt_int i)
                     then wire ser ("TOGGLE" ++ fmt_int i) else [])
           (range 5).

Definition read_commands (ser : option Serial) (ck : option str) : list str :=
  if was ck "Read Current" then wire ser "READ" else [].

Definition power_commands (ser : option Serial) (ck : option str) : list str :=
  if was ck "power_button" then wire ser "POWER" else [].

Definition tab_commands (ser : option Serial) (ck : option str) (tab : str)
  : list str :=
  if String.eqb tab "Current Monitoring" then read_commands ser ck
  else if String.eqb tab "System Control"
       then (toggle_commands ser ck ++ wire ser "STATUS"
               ++ read_commands ser ck)%list
       else [].

Definition run_commands (ser : option Serial) (ck : option str) (tab : str)
  : list str :=
  (tab_commands ser ck tab ++ power_commands ser ck)%list.

(** The inputs of a run that no step of the script changes: the click, the
    tab and the handle the cache or the port will give. *)
Definition scene (ck : option str) (tab : str) (ser : option Serial)
           (w : World) : Prop :=
  clicked w = ck /\ selected w = tab /\ handle_of w = ser.

(** In a scene, [m] adds to the trace the exchanges of the first commands
    of [cmds] in order: whole exchanges, and after them at most one that a
    failing read cut short, in which case [m] raises [SerialException]; if
    [m] returns, all of [cmds] were exchanged and what it returns satisfies
    [R]; the scene stays. *)
Definition emits {A : Type} (sc : World -> Prop) (cmds : list str)
           (R : A -> Prop) (m : M A) : Prop :=
  forall w : World,
    sc w ->
    sc (snd (m w))
    /\ exists (exs : list (str * bytes)) (broken : option str)
              (rest : list str),
        io (snd (m w)) = (io w ++ transcript exs ++ cut_short broken)%list
        /\ cmds = (map fst exs ++ attempted broken ++ rest)%list
        /\ (forall a : A, fst (m w) = Ok a -> broken = None /\ rest = [] /\ R a)
        /\ (broken <> None -> fst (m w) = Raise SerialException).

(** [main], lines 160-171: the head of the page, the connection, the
    session state and the menu; what the rest of [main] works with is the
    handle and the selected tab. *)
Definition preamble : M (option Serial * str) :=
  emit (PageConfig "UNIVERSITY SCADA DASHBOARD" ":bar_chart:") ;;
  st_markdown hide_st_style ;;
  st_title "UNIVERSITY SCADA DASHBOARD" ;;
  st_markdown "Monitor and Control System Parameters" ;;
  ser <- get_serial_connection ;;
  initialize_session_state ;;
  sel <- option_menu
    ["System Control"; "Current Monitoring"; "Report and Data Analytics"] ;;
  ret (ser, sel).

(** [main], lines 173-180: the view of the selected tab. *)
Definition tab_view (f : str -> option float) (ser : option Serial)
           (sel : str) : M unit :=
  if String.eqb sel "Current Monitoring" then current_monitoring f ser
  else if String.eqb sel "System Control" then system_control f ser
  else if String.eqb sel "Report and Data Analytics" then data_analytics
  else st_error "Invalid selection".

(** [main], lines 183-186: the power button. *)
Definition power_control (ser : option Serial) : M unit :=
  st_subheader "Power Control" ;;
  pressed <- st_button "power_button" "Toggle Power" ;;
  if pressed : bool then
    response <- send_command ser "POWER" ;;
    st_write ("Power Control Response: " ++ response)
  else ret tt.

(** The session state has its [data] key. *)
Definition armed (w : World) : Prop := data w <> None.

(** With the [data] key in place, [m] leaves it in place, raises only
    exceptions in [E] and returns only values in [R]. *)
Definition keeps {A : Type} (E : Exn -> Prop) (R : A -> Prop) (m : M A)
  : Prop :=
  forall w : World,
    armed w ->
    armed (snd (m w))
    /\ match fst (m w) with
       | Ok a => R a
       | Raise e => E e
       end.

(** What can end a run: a token without a column, bytes that are no
    UTF-8, a failure of the link. *)
Definition run_error (e : Exn) : Prop :=
  e = IndexError \/ e = UnicodeDecodeError \/ e = SerialException.

(** What the two views under "Current Monitoring" show for a frame: for an
    empty one nothing, else the metric of the last row and the chart of all
    rows. *)
Definition views (df : DataFrame) : list Element :=
  match df with
  | [] => []
  | _ => [Metric "Current"
                 (format_2f (current (last df (mkSample 0 0%float))) ++ " A");
          CurrentChart df]
  end.

(** ** What an exchange touches *)

(** Runs the primitives of the monad on a world given by its fields and
    puts the rendered page back into one list. *)
Ltac run :=
  cbv [bind ret raise try_except for_each range enumerate getitem emit
       st_title st_markdown st_subheader st_write st_error st_metric
       st_button st_columns col_button col_write was_clicked ser_write
       time_sleep ser_readline bytes_decode Timestamp_now get_data
       get_frame put_frame new_data empty_frame link_fails next_call hd tl
       py_float iloc_last df_empty pd_concat encode truthy negb fst snd
       dtype rows
       clock rx open_error clicked selected io conn_cache data page
       outages data_dtype
       set_clock set_rx set_io set_conn_cache set_data set_page
       set_outages set_data_dtype] in *.

Ltac tidy := rewrite <- ?app_assoc; cbn [app].

(** The cases of the link under the coming calls of the port. *)
Ltac link_cases :=
  repeat match goal with
  | |- context [match ?o with [] => _ | _ :: _ => _ end] =>
    lazymatch type of o with
    | list bool => destruct o as [|[|] ?]; cbv beta iota
    end
  end.

(** [send_command] leaves the session state, the page, the cache and the
    inputs alone; the clock can only advance. *)
Lemma send_command_frame (ser : option Serial) (command : str) (w w1 : World)
      (out : Outcome str) :
  send_command ser command w = (out, w1) ->
  data w1 = data w /\ page w1 = page w /\ conn_cache w1 = conn_cache w
  /\ clicked w1 = clicked w /\ selected w1 = selected w
  /\ open_error w1 = open_error w /\ (clock w <= clock w1)%N.
Proof.
  destruct w as [t q oe ck sel tr cc d pg o dt].
  unfold send_command. destruct ser as [s|]; run.
  - link_cases; destruct q as [|r rest]; try destruct (decode (payload r));
      intros H; injection H as _ <-; repeat split; lia.
  - intros H; injection H as _ <-. repeat split; lia.
Qed.

(** With an open port, an exchange that does not end in a failure of the
    link is one write of the command, the pause and one read. *)
Lemma send_command_trace (s : Serial) (command : str) (w w1 : World)
      (out : Outcome str) :
  send_command (Some s) command w = (out, w1) ->
  out <> Raise SerialException ->
  exists line : bytes,
    io w1 = (io w ++ [SerialWrite command; Sleep 100000000;
                      SerialReadline line])%list.
Proof.
  destruct w as [t q oe ck sel tr cc d pg o dt].
  unfold send_command; run.
  link_cases; try (intros H; injection H as <- _; congruence);
    (destruct q as [|r rest];
     [ intros H _; injection H as _ <-; tidy; now exists EmptyString
     | destruct (decode (payload r)); intros H _; injection H as _ <-; tidy;
       now exists (payload r) ]).
Qed.

(** What an exchange returns is the text of the line read, stripped. *)
Lemma send_command_answer (s : Serial) (command : str) (w w1 : World)
      (resp : str) :
  send_command (Some s) command w = (Ok resp, w1) ->
  exists (line : bytes) (text : str),
    decode line = Some text /\ resp = strip text.
Proof.
  destruct w as [t q oe ck sel tr cc d pg o dt].
  unfold send_command; run.
  link_cases; try discriminate;
    (destruct q as [|r rest];
     [ intros H; injection H as <- _; now exists EmptyString, EmptyString
     | destruct (decode (payload r)) as [text|] eqn:Hdec; [|discriminate];
       intros H; injection H as <- _; now exists (payload r), text ]).
Qed.

(** When the link fails, under the write or under the read, the exchange
    raises [SerialException]; what is on the line is then nothing, or the
    command and the pause without the read. *)
Lemma send_command_broken (s : Serial) (command : str) (w w1 : World)
      (e : Exn) :
  send_command (Some s) command w = (Raise e, w1) ->
  e = UnicodeDecodeError
  \/ (e = SerialException
      /\ (io w1 = io w
          \/ io w1 = (io w ++ [SerialWrite command; Sleep 100000000])%list)).
Proof.
  destruct w as [t q oe ck sel tr cc d pg o dt].
  unfold send_command; run.
  link_cases;
    try (intros H; injection H as <- <-; right; split; [reflexivity|];
         cbn; tidy; auto);
    (destruct q as [|r rest]; [discriminate|];
     destruct (decode (payload r)); [discriminate|];
     intros H; injection H as <- _; now left).
Qed.

(** ** The null handle *)

(** C3: for every command, [send_command] on a null handle returns the
    literal "Error: No serial connection" and leaves the whole world as it
    was: nothing is written, no pause is taken, nothing is read. *)
Theorem send_command_no_connection :
  forall (command : str) (w : World),
    send_command None command w = (Ok "Error: No serial connection", w).
Proof.
  intros command w. reflexivity.
Qed.

(** ** Reading the current *)

(** C1: when the answer to READ parses as a float [x], [read_current] adds
    exactly one sample at the end of the store, with [current = x] and the
    time read after the exchange, which is not before the time of the call;
    the rows that were there are kept and nothing else is added. *)
Theorem read_current_appends_sample :
  forall (float_of_str : str -> option float) (ser : option Serial)
         (w w1 : World) (s : str) (x : float) (df : DataFrame),
    send_command ser "READ" w = (Ok s, w1) ->
    float_of_str s = Some x ->
    data w = Some df ->
    read_current float_of_str ser w
    = (Ok tt, set_data (Some (df ++ [mkSample (clock w1) x])%list) w1)
    /\ (clock w <= clock w1)%N.
Proof.
  intros f ser w w1 s x df Hsend Hfloat Hdata.
  destruct (send_command_frame _ _ _ _ _ Hsend) as (Hd & _ & _ & _ & _ & _ & Hc).
  split; [|exact Hc].
  unfold read_current, bind at 1. rewrite Hsend.
  rewrite Hdata in Hd. clear Hsend Hdata Hc.
  destruct w1 as [t q oe ck sel tr cc d pg o dt]. run.
  rewrite Hfloat, Hd. now destruct dt.
Qed.

(** C2: when the answer to READ does not parse as a float, [read_current]
    returns normally, shows "Invalid current reading: " with the answer, and
    the store is what it was before the call. *)
Theorem read_current_invalid_reading :
  forall (float_of_str : str -> option float) (ser : option Serial)
         (w w1 : World) (s : str),
    send_command ser "READ" w = (Ok s, w1) ->
    float_of_str s = None ->
    exists w2 : World,
      read_current float_of_str ser w = (Ok tt, w2)
      /\ data w2 = data w
      /\ page w2
         = (page w ++ [ErrorBox ("Invalid current reading: " ++ s)%string])%list.
Proof.
  intros f ser w w1 s Hsend Hfloat.
  destruct (send_command_frame _ _ _ _ _ Hsend) as (Hd & Hp & _).
  exists (set_page
            (page w1 ++ [ErrorBox ("Invalid current reading: " ++ s)%string])%list
            w1).
  split; [|split].
  - unfold read_current, bind at 1. rewrite Hsend.
    clear Hsend Hd Hp. destruct w1 as [t q oe ck sel tr cc d pg]. run.
    rewrite Hfloat. reflexivity.
  - rewrite <- Hd. reflexivity.
  - rewrite <- Hp. reflexivity.
Qed.

(** ** The page does not matter to an exchange *)

Lemma send_command_set_page (ser : option Serial) (command : str)
      (p : list Element) (w : World) :
  send_command ser command (set_page p w)
  = (fst (send_command ser command w),
     set_page p (snd (send_command ser command w))).
Proof.
  destruct w as [t q oe ck sel tr cc d pg o dt].
  unfold send_command. destruct ser as [s|]; run; [|reflexivity].
  link_cases; try reflexivity;
    (destruct q as [|r rest]; [reflexivity|];
     destruct (decode (payload r)); reflexivity).
Qed.

Lemma set_page_same (w : World) : set_page (page w) w = w.
Proof. now destruct w. Qed.

Lemma set_page_twice (p q : list Element) (w : World) :
  set_page p (set_page q w) = set_page p w.
Proof. reflexivity. Qed.

(** ** The status display *)

Lemma status_cols_nth (b i : nat) :
  nth_error (map (mkColumn b) (seq 0 5)) i
  = if (i <? 5)%nat then Some (mkColumn b i) else None.
Proof.
  do 5 (destruct i as [|i]; [reflexivity|]). now destruct i.
Qed.

Lemma status_rows_cons (b k : nat) (state : str) (states : list str) :
  status_rows b k (state :: states)
  = status_row b k state :: status_rows b (S k) states.
Proof. reflexivity. Qed.

(** The loop over the tokens while they fit the five columns. *)
Lemma status_loop_fits (b : nat) (states : list str) :
  forall (k : nat) (w : World),
    (k + List.length states <= 5)%nat ->
    for_each (combine (seq k (List.length states)) states)
      (fun '(i, state) =>
         c <- getitem (map (mkColumn b) (seq 0 5)) i ;;
         col_write c ("BULD-BUTTON " ++ fmt_int i ++ ": " ++ state)) w
    = (Ok tt, set_page (page w ++ status_rows b k states)%list w).
Proof.
  induction states as [|state states IH]; intros k w Hk.
  - cbn. unfold ret. now rewrite app_nil_r, set_page_same.
  - cbn [List.length seq combine for_each]. cbn [List.length] in Hk.
    unfold bind at 1, bind at 1, getitem.
    rewrite status_cols_nth.
    destruct (Nat.ltb_spec k 5) as [_|]; [|lia].
    unfold ret at 1, col_write, emit at 1.
    rewrite IH by lia. rewrite status_rows_cons.
    destruct w as [t q oe ck sel tr cc d pg]. cbn.
    now rewrite <- app_assoc.
Qed.

(** The loop when a token has no column left: the first [5 - k] rows are
    written, then the index is out of range. *)
Lemma status_loop_overflows (b : nat) (states : list str) :
  forall (k : nat) (w : World),
    (k <= 5)%nat -> (5 < k + List.length states)%nat ->
    for_each (combine (seq k (List.length states)) states)
      (fun '(i, state) =>
         c <- getitem (map (mkColumn b) (seq 0 5)) i ;;
         col_write c ("BULD-BUTTON " ++ fmt_int i ++ ": " ++ state)) w
    = (Raise IndexError,
       set_page (page w ++ status_rows b k (firstn (5 - k) states))%list w).
Proof.
  induction states as [|state states IH]; intros k w Hk Hlen.
  - cbn in Hlen. lia.
  - cbn [List.length seq combine for_each]. cbn [List.length] in Hlen.
    unfold bind at 1, bind at 1, getitem.
    rewrite status_cols_nth.
    destruct (Nat.ltb_spec k 5) as [Hlt|Hge].
    + unfold ret at 1, col_write, emit at 1.
      rewrite IH by lia.
      replace (5 - k)%nat with (S (5 - S k)) by lia.
      cbn [firstn]. rewrite status_rows_cons.
      destruct w as [t q oe ck sel tr cc d pg]. cbn.
      now rewrite <- app_assoc.
    + replace (5 - k)%nat with 0%nat by lia.
      cbn. unfold raise. now rewrite app_nil_r, set_page_same.
Qed.

(** What [status_display] does with any answer: nothing for the empty
    one; else the five columns and a row per token, up to the fifth. *)
Lemma status_display_rows (ser : option Serial) (w w1 : World) (status : str) :
  send_command ser "STATUS" w = (Ok status, w1) ->
  status_display ser w
  = if truthy status then
      let states := split "," status in
      let b := List.length (page w1) in
      if (List.length states <=? 5)%nat
      then (Ok tt,
            set_page (page w1 ++ Columns 5 :: status_rows b 0 states)%list w1)
      else (Raise IndexError,
            set_page (page w1 ++ Columns 5
                        :: status_rows b 0 (firstn 5 states))%list w1)
    else (Ok tt, w1).
Proof.
  intros Hsend. unfold status_display, bind at 1. rewrite Hsend.
  destruct (truthy status); [|reflexivity].
  cbv zeta. unfold bind at 1, st_columns, enumerate.
  destruct (Nat.leb_spec (List.length (split "," status)) 5) as [Hle|Hgt].
  - rewrite status_loop_fits by (cbn; lia).
    destruct w1 as [t q oe ck sel tr cc d pg]. cbn.
    now rewrite <- app_assoc.
  - rewrite status_loop_overflows by (cbn; lia).
    destruct w1 as [t q oe ck sel tr cc d pg]. cbn.
    now rewrite <- app_assoc.
Qed.

Lemma split_not_nil (sep : ascii) (s : str) :
  exists (h : str) (t : list str), split sep s = h :: t.
Proof.
  destruct s as [|c s]; cbn [split].
  - now exists EmptyString, [].
  - destruct (Ascii.eqb c sep).
    + now exists EmptyString, (split sep s).
    + destruct (split sep s) as [|h t].
      * now exists (String c EmptyString), [].
      * now exists (String c h), t.
Qed.

(** C7: when the answer to STATUS is "ON,OFF,ON,OFF,ON", the status
    display makes its five columns and writes five rows, numbered 0 to 4 in
    slots 0 to 4, with the values ON, OFF, ON, OFF, ON in this order. *)
Theorem status_display_five_bulbs :
  forall (ser : option Serial) (w w1 : World),
    send_command ser "STATUS" w = (Ok "ON,OFF,ON,OFF,ON", w1) ->
    let b := List.length (page w1) in
    status_display ser w
    = (Ok tt,
       set_page (page w1 ++
                 [Columns 5;
                  InColumn (mkColumn b 0) (Text "BULD-BUTTON 0: ON");
                  InColumn (mkColumn b 1) (Text "BULD-BUTTON 1: OFF");
                  InColumn (mkColumn b 2) (Text "BULD-BUTTON 2: ON");
                  InColumn (mkColumn b 3) (Text "BULD-BUTTON 3: OFF");
                  InColumn (mkColumn b 4) (Text "BULD-BUTTON 4: ON")])%list
                w1).
Proof.
  intros ser w w1 Hsend b.
  rewrite (status_display_rows _ _ _ _ Hsend). reflexivity.
Qed.

Lemma status_display_five_bulbs_witness :
  status_display (Some arduino)
                 (fresh 0 [mkReply 3 ("ON,OFF,ON,OFF,ON" ++ LF)])
  = (Ok tt,
     mkWorld 100000003 [] None None "System Control"
             [SerialWrite "STATUS"; Sleep 100000000;
              SerialReadline ("ON,OFF,ON,OFF,ON" ++ LF)]
             None None
             [Columns 5;
              InColumn (mkColumn 0 0) (Text "BULD-BUTTON 0: ON");
              InColumn (mkColumn 0 1) (Text "BULD-BUTTON 1: OFF");
              InColumn (mkColumn 0 2) (Text "BULD-BUTTON 2: ON");
              InColumn (mkColumn 0 3) (Text "BULD-BUTTON 3: OFF");
              InColumn (mkColumn 0 4) (Text "BULD-BUTTON 4: ON")]).
Proof.
  apply (status_display_five_bulbs
           (Some arduino) (fresh 0 [mkReply 3 ("ON,OFF,ON,OFF,ON" ++ LF)])
           (mkWorld 100000003 [] None None "System Control"
                    [SerialWrite "STATUS"; Sleep 100000000;
                     SerialReadline ("ON,OFF,ON,OFF,ON" ++ LF)]
                    None None [])).
  reflexivity.
Defined.

(** C10: when the answer to STATUS is the empty string, the status display
    renders nothing at all, no column and no row; when it is not empty, the
    columns are made and the loop runs, so that row 0 shows the first
    token. *)
Theorem status_display_empty_answer :
  forall (ser : option Serial) (w w1 : World) (status : str),
    send_command ser "STATUS" w = (Ok status, w1) ->
    (status = "" -> status_display ser w = (Ok tt, w1))
    /\ (status <> "" ->
        exists (out : Outcome unit) (w2 : World) (rest : list Element),
          status_display ser w = (out, w2)
          /\ page w2
             = (page w1 ++
                Columns 5
                :: status_row (List.length (page w1)) 0
                              (hd "" (split "," status))
                :: rest)%list).
Proof.
  intros ser w w1 status Hsend.
  rewrite (status_display_rows _ _ _ _ Hsend). split.
  - intros ->. reflexivity.
  - intros Hne. destruct status as [|c status]; [congruence|].
    cbn [truthy]. cbv zeta.
    destruct (split_not_nil "," (String c status)) as (h & t & Hsplit).
    rewrite Hsplit. cbn [hd].
    destruct (List.length (h :: t) <=? 5)%nat.
    + eexists _, _, (status_rows _ 1 t). split; [reflexivity|].
      reflexivity.
    + eexists _, _, (status_rows _ 1 (firstn 4 t)). split; [reflexivity|].
      reflexivity.
Qed.

Lemma status_display_empty_answer_witness :
  status_display (Some arduino) (fresh 0 [])
  = (Ok tt,
     mkWorld 1100000000 [] None None "System Control"
             [SerialWrite "STATUS"; Sleep 100000000; SerialReadline ""]
             None None []).
Proof.
  apply (status_display_empty_answer
           (Some arduino) (fresh 0 [])
           (mkWorld 1100000000 [] None None "System Control"
                    [SerialWrite "STATUS"; Sleep 100000000; SerialReadline ""]
                    None None [])
           "").
  - reflexivity.
  - reflexivity.
Defined.

(** C4, where the code departs from it: when the answer to STATUS has more
    than five tokens, the status display writes the rows of the first five
    and then fails with [IndexError] at [status_cols[5]]; the extra tokens
    are not dropped silently. *)
Theorem status_display_extra_tokens :
  forall (ser : option Serial) (w w1 : World) (status : str),
    send_command ser "STATUS" w = (Ok status, w1) ->
    (5 < List.length (split "," status))%nat ->
    status_display ser w
    = (Raise IndexError,
       set_page (page w1 ++
                 Columns 5
                 :: status_rows (List.length (page w1)) 0
                                (firstn 5 (split "," status)))%list
                w1).
Proof.
  intros ser w w1 status Hsend Hlen.
  rewrite (status_display_rows _ _ _ _ Hsend).
  destruct status as [|c status]; [cbn in Hlen; lia|].
  cbn [truthy]. cbv zeta.
  destruct (Nat.leb_spec (List.length (split "," (String c status))) 5);
    [lia|reflexivity].
Qed.

Lemma status_display_extra_tokens_witness :
  status_display (Some arduino) (fresh 0 [mkReply 3 ("A,B,C,D,E,F" ++ LF)])
  = (Raise IndexError,
     mkWorld 100000003 [] None None "System Control"
             [SerialWrite "STATUS"; Sleep 100000000;
              SerialReadline ("A,B,C,D,E,F" ++ LF)]
             None None
             [Columns 5;
              InColumn (mkColumn 0 0) (Text "BULD-BUTTON 0: A");
              InColumn (mkColumn 0 1) (Text "BULD-BUTTON 1: B");
              InColumn (mkColumn 0 2) (Text "BULD-BUTTON 2: C");
              InColumn (mkColumn 0 3) (Text "BULD-BUTTON 3: D");
              InColumn (mkColumn 0 4) (Text "BULD-BUTTON 4: E")]).
Proof.
  apply (status_display_extra_tokens
           (Some arduino) (fresh 0 [mkReply 3 ("A,B,C,D,E,F" ++ LF)])
           (mkWorld 100000003 [] None None "System Control"
                    [SerialWrite "STATUS"; Sleep 100000000;
                     SerialReadline ("A,B,C,D,E,F" ++ LF)]
                    None None [])
           "A,B,C,D,E,F").
  - reflexivity.
  - cbn. lia.
Defined.

(** ** The toggle buttons *)

Lemma to_uint_not_Nil (n : nat) : Nat.to_uint n <> Decimal.Nil.
Proof.
  intros H. pose proof (DecimalNat.Unsigned.of_to n) as E.
  rewrite H in E. cbn in E. subst n. discriminate H.
Qed.

(** Distinct numbers print differently, so the buttons have distinct keys. *)
Lemma fmt_int_inj (i j : nat) : fmt_int i = fmt_int j -> i = j.
Proof.
  unfold fmt_int. intros H.
  apply DecimalNat.Unsigned.to_uint_inj.
  pose proof (NilZero.usu _ (to_uint_not_Nil i)) as Hi.
  pose proof (NilZero.usu _ (to_uint_not_Nil j)) as Hj.
  rewrite H in Hi. congruence.
Qed.

Lemma button_key_eqb (i j : nat) :
  String.eqb ("Button " ++ fmt_int i) ("Button " ++ fmt_int j) = Nat.eqb i j.
Proof.
  destruct (Nat.eqb_spec i j) as [->|Hne].
  - apply String.eqb_refl.
  - apply String.eqb_neq. intros H. injection H as H.
    now apply fmt_int_inj in H.
Qed.

Lemma for_each_app {A : Type} (l1 l2 : list A) (body : A -> M unit) (w : World) :
  for_each (l1 ++ l2)%list body w
  = (for_each l1 body ;; for_each l2 body) w.
Proof.
  revert w. induction l1 as [|x l1 IH]; intros w.
  - reflexivity.
  - cbn [app for_each]. unfold bind.
    destruct (body x w) as [[[]|e] w0]; [|reflexivity].
    rewrite IH. reflexivity.
Qed.

(** A button that was not clicked is drawn and nothing else happens. *)
Lemma toggle_body_idle (ser : option Serial) (b j : nat) (w : World) :
  (j < 5)%nat ->
  was_clicked ("Button " ++ fmt_int j) w = false ->
  toggle_body ser (map (mkColumn b) (seq 0 5)) j w
  = (Ok tt, set_page (page w ++ [toggle_button b j])%list w).
Proof.
  intros Hj Hidle. unfold toggle_body, bind, getitem.
  rewrite status_cols_nth.
  destruct (Nat.ltb_spec j 5) as [_|]; [|lia].
  unfold ret at 1, col_button. rewrite Hidle. reflexivity.
Qed.

(** The button that was clicked is drawn, its command is exchanged once and
    the answer is written under the label. *)
Lemma toggle_body_pressed (ser : option Serial) (b j : nat) (w w1 : World)
      (resp : str) :
  (j < 5)%nat ->
  was_clicked ("Button " ++ fmt_int j) w = true ->
  send_command ser ("TOGGLE" ++ fmt_int j) w = (Ok resp, w1) ->
  toggle_body ser (map (mkColumn b) (seq 0 5)) j w
  = (Ok tt,
     set_page (page w ++ [toggle_button b j;
                          Text ("Control System Response: " ++ resp)%string])%list
              w1).
Proof.
  intros Hj Hclick Hsend.
  destruct (send_command_frame _ _ _ _ _ Hsend) as (_ & Hp & _).
  unfold toggle_body, bind, getitem.
  rewrite status_cols_nth.
  destruct (Nat.ltb_spec j 5) as [_|]; [|lia].
  unfold ret at 1, col_button. rewrite Hclick.
  rewrite send_command_set_page, Hsend. cbn [fst snd].
  unfold st_write, emit. rewrite <- Hp.
  destruct w1 as [t q oe ck sel tr cc d pg]. cbn.
  now rewrite <- app_assoc.
Qed.

Lemma toggle_loop_idle (ser : option Serial) (b : nat) (js : list nat) :
  forall w : World,
    Forall (fun j => (j < 5)%nat
                     /\ was_clicked ("Button " ++ fmt_int j) w = false) js ->
    for_each js (toggle_body ser (map (mkColumn b) (seq 0 5))) w
    = (Ok tt, set_page (page w ++ map (toggle_button b) js)%list w).
Proof.
  induction js as [|j js IH]; intros w Hall.
  - cbn. unfold ret. now rewrite app_nil_r, set_page_same.
  - inversion Hall as [|? ? [Hj Hidle] Hrest]; subst.
    cbn [for_each map]. unfold bind.
    rewrite toggle_body_idle by assumption.
    rewrite IH by exact Hrest.
    destruct w as [t q oe ck sel tr cc d pg]. cbn.
    now rewrite <- app_assoc.
Qed.

Lemma range_split (i n : nat) :
  (i < n)%nat -> range n = (seq 0 i ++ i :: seq (S i) (n - S i))%list.
Proof.
  intros Hi. unfold range.
  replace n with (i + S (n - S i))%nat at 1 by lia.
  rewrite seq_app. reflexivity.
Qed.

(** C9: in a run started by the click on button [i] (0 to 4; button 2 for
    TOGGLE2), [bulb_control] makes exactly one exchange, of the literal
    command "TOGGLE" followed by [i], and writes the text it returned, as
    returned, after the label "Control System Response: "; the other buttons
    are only drawn.  With an open port what goes over the line is the one
    write of that command, the pause and one read. *)
Theorem toggle_button_sends_literal :
  forall (i : nat) (ser : option Serial) (w w1 : World) (resp : str),
    (i < 5)%nat ->
    clicked w = Some ("Button " ++ fmt_int i) ->
    send_command ser ("TOGGLE" ++ fmt_int i) w = (Ok resp, w1) ->
    let b := S (List.length (page w)) in
    bulb_control ser w
    = (Ok tt,
       set_page (page w ++
                 Subheader "Bulb Control" :: Columns 5
                 :: toggle_buttons b 0 (S i)
                 ++ Text ("Control System Response: " ++ resp)%string
                 :: toggle_buttons b (S i) (4 - i))%list
                w1)
    /\ (forall s : Serial, ser = Some s ->
        exists line : bytes,
          io w1 = (io w ++ [SerialWrite ("TOGGLE" ++ fmt_int i)%string;
                            Sleep 100000000; SerialReadline line])%list).
Proof.
  intros i ser w w1 resp Hi Hclick Hsend b.
  split; [|intros s ->; exact (send_command_trace _ _ _ _ _ Hsend ltac:(discriminate))].
  assert (Hkey : forall (p : list Element) (j : nat),
             was_clicked ("Button " ++ fmt_int j) (set_page p w) = Nat.eqb i j).
  { intros p j. unfold was_clicked. cbn [clicked set_page]. rewrite Hclick.
    apply button_key_eqb. }
  destruct (send_command_frame _ _ _ _ _ Hsend) as (_ & Hp & _ & Hck & _).
  unfold bulb_control, bind at 1, st_subheader, emit.
  unfold bind at 1, st_columns. cbn [page set_page].
  rewrite set_page_twice, <- app_assoc. cbn [app].
  rewrite (range_split i 5 Hi), for_each_app. unfold bind at 1.
  rewrite toggle_loop_idle.
  2:{ apply Forall_forall. intros j Hin. apply in_seq in Hin.
      split; [lia|]. rewrite Hkey. apply Nat.eqb_neq. lia. }
  cbn [for_each page set_page]. rewrite set_page_twice. unfold bind at 1.
  rewrite (toggle_body_pressed ser _ i _
             (set_page ((page w ++ [Subheader "Bulb Control"; Columns 5])
                          ++ map (toggle_button (List.length
                                    (page w ++ [Subheader "Bulb Control"])%list))
                                 (seq 0 i))%list w1) resp Hi).
  2:{ rewrite Hkey. apply Nat.eqb_refl. }
  2:{ rewrite send_command_set_page, Hsend. reflexivity. }
  cbn [page set_page]. rewrite set_page_twice.
  rewrite toggle_loop_idle.
  2:{ apply Forall_forall. intros j Hin. apply in_seq in Hin.
      split; [lia|]. unfold was_clicked. cbn [clicked set_page].
      rewrite Hck, Hclick, button_key_eqb. apply Nat.eqb_neq. lia. }
  cbn [page set_page]. rewrite set_page_twice.
  replace (List.length (page w ++ [Subheader "Bulb Control"])%list) with b
    by (subst b; rewrite length_app; cbn; lia).
  replace (5 - S i)%nat with (4 - i)%nat by lia.
  unfold toggle_buttons. rewrite seq_S, map_app.
  destruct w as [t q oe ck sel tr cc d pg].
  destruct w1 as [t1 q1 oe1 ck1 sel1 tr1 cc1 d1 pg1].
  cbn. f_equal. f_equal. rewrite <- !app_assoc. reflexivity.
Qed.

Lemma toggle_button_sends_literal_witness :
  bulb_control (Some arduino)
    (mkWorld 0 [mkReply 3 ("LED 2 ON" ++ LF)] None (Some "Button 2")
             "System Control" [] None None [])
  = (Ok tt,
     mkWorld 100000003 [] None (Some "Button 2") "System Control"
             [SerialWrite "TOGGLE2"; Sleep 100000000;
              SerialReadline ("LED 2 ON" ++ LF)]
             None None
             [Subheader "Bulb Control"; Columns 5;
              InColumn (mkColumn 1 0) (Button "Button 0" "Button 0");
              InColumn (mkColumn 1 1) (Button "Button 1" "Button 1");
              InColumn (mkColumn 1 2) (Button "Button 2" "Button 2");
              Text "Control System Response: LED 2 ON";
              InColumn (mkColumn 1 3) (Button "Button 3" "Button 3");
              InColumn (mkColumn 1 4) (Button "Button 4" "Button 4")])
  /\ (forall s : Serial, Some arduino = Some s ->
      exists line : bytes,
        [SerialWrite "TOGGLE2"; Sleep 100000000;
         SerialReadline ("LED 2 ON" ++ LF)]
        = [SerialWrite "TOGGLE2"; Sleep 100000000; SerialReadline line]).
Proof.
  apply (toggle_button_sends_literal
           2 (Some arduino)
           (mkWorld 0 [mkReply 3 ("LED 2 ON" ++ LF)] None (Some "Button 2")
                    "System Control" [] None None [])
           (mkWorld 100000003 [] None (Some "Button 2") "System Control"
                    [SerialWrite "TOGGLE2"; Sleep 100000000;
                     SerialReadline ("LED 2 ON" ++ LF)]
                    None None [])
           "LED 2 ON").
  - lia.
  - reflexivity.
  - reflexivity.
Defined.

Lemma read_current_appends_sample_witness :
  read_current plain_decimal (Some arduino)
    (mkWorld 5 [mkReply 7 ("12.5" ++ LF)] None (Some "Read Current")
             "Current Monitoring" [] None (Some [mkSample 2 0.5%float]) [])
  = (Ok tt,
     mkWorld 100000012 [] None (Some "Read Current") "Current Monitoring"
             [SerialWrite "READ"; Sleep 100000000;
              SerialReadline ("12.5" ++ LF)]
             None
             (Some [mkSample 2 0.5%float; mkSample 100000012 12.5%float]) [])
  /\ (5 <= 100000012)%N.
Proof.
  apply (read_current_appends_sample
           plain_decimal (Some arduino)
           (mkWorld 5 [mkReply 7 ("12.5" ++ LF)] None (Some "Read Current")
                    "Current Monitoring" [] None
                    (Some [mkSample 2 0.5%float]) [])
           (mkWorld 100000012 [] None (Some "Read Current")
                    "Current Monitoring"
                    [SerialWrite "READ"; Sleep 100000000;
                     SerialReadline ("12.5" ++ LF)]
                    None (Some [mkSample 2 0.5%float]) [])
           "12.5" 12.5%float [mkSample 2 0.5%float]).
  - reflexivity.
  - reflexivity.
  - reflexivity.
Defined.

Lemma read_current_invalid_reading_witness :
  exists w2 : World,
    read_current plain_decimal (Some arduino)
      (mkWorld 5 [mkReply 7 ("overload" ++ LF)] None (Some "Read Current")
               "Current Monitoring" [] None (Some [mkSample 2 0.5%float]) [])
    = (Ok tt, w2)
    /\ data w2 = Some [mkSample 2 0.5%float]
    /\ page w2 = [ErrorBox "Invalid current reading: overload"].
Proof.
  apply (read_current_invalid_reading
           plain_decimal (Some arduino)
           (mkWorld 5 [mkReply 7 ("overload" ++ LF)] None (Some "Read Current")
                    "Current Monitoring" [] None
                    (Some [mkSample 2 0.5%float]) [])
           (mkWorld 100000012 [] None (Some "Read Current")
                    "Current Monitoring"
                    [SerialWrite "READ"; Sleep 100000000;
                     SerialReadline ("overload" ++ LF)]
                    None (Some [mkSample 2 0.5%float]) [])
           "overload").
  - reflexivity.
  - reflexivity.
Defined.

(** ** The latest reading *)

(** C6: with a non-empty store, [display_current_reading] shows one metric,
    labelled "Current", whose value is the current of the last sample of
    the store formatted by [.2f] and followed by " A"; with an empty store
    it renders nothing.  The store itself is not touched. *)
Theorem display_current_reading_latest :
  forall (w : World) (df : DataFrame),
    data w = Some df ->
    (df = [] -> display_current_reading w = (Ok tt, w))
    /\ (forall (older : DataFrame) (latest : Sample),
         df = (older ++ [latest])%list ->
         display_current_reading w
         = (Ok tt,
            set_page (page w ++
                      [Metric "Current"
                              (format_2f (current latest) ++ " A")%string])%list
                     w)).
Proof.
  intros w df Hdata. split.
  - intros ->. unfold display_current_reading, bind, get_data.
    rewrite Hdata. reflexivity.
  - intros older latest ->.
    unfold display_current_reading, bind at 1, get_data. rewrite Hdata.
    replace (df_empty (older ++ [latest])%list) with false
      by (now destruct older).
    cbn [negb]. unfold bind, iloc_last, getitem.
    rewrite map_app, rev_app_distr. reflexivity.
Qed.

Lemma display_current_reading_latest_witness :
  display_current_reading
    (mkWorld 9 [] None None "Current Monitoring" [] None
             (Some [mkSample 2 0.5%float; mkSample 7 2.625%float]) [])
  = (Ok tt,
     mkWorld 9 [] None None "Current Monitoring" [] None
             (Some [mkSample 2 0.5%float; mkSample 7 2.625%float])
             [Metric "Current" "2.62 A"]).
Proof.
  exact (proj2 (display_current_reading_latest
                  (mkWorld 9 [] None None "Current Monitoring" [] None
                           (Some [mkSample 2 0.5%float; mkSample 7 2.625%float])
                           [])
                  [mkSample 2 0.5%float; mkSample 7 2.625%float]
                  eq_refl)
               [mkSample 2 0.5%float] (mkSample 7 2.625%float) eq_refl).
Defined.

(** ** The store over a session *)

Lemma strongly_sorted_app {A : Type} (R : A -> A -> Prop) (l1 l2 : list A) :
  StronglySorted R l1 -> StronglySorted R l2 ->
  (forall a b, In a l1 -> In b l2 -> R a b) ->
  StronglySorted R (l1 ++ l2)%list.
Proof.
  intros H1 H2 Hcross. induction H1 as [|a l1 Hl1 IH Ha]; cbn [app].
  - exact H2.
  - constructor.
    + apply IH. intros x y Hx Hy. apply Hcross; [now right|exact Hy].
    + apply Forall_app. split; [exact Ha|].
      apply Forall_forall. intros y Hy. apply Hcross; [now left|exact Hy].
Qed.

Lemma timestamp_le_trans :
  Relations_1.Transitive (fun a b : Sample => (timestamp a <= timestamp b)%N).
Proof. intros a b c Hab Hbc. lia. Qed.

(** Two stretches of samples in time order, the first one all before the
    second, are in time order together. *)
Lemma chronological_app (l1 l2 : DataFrame) :
  chronological l1 -> chronological l2 ->
  (forall a b, In a l1 -> In b l2 -> (timestamp a <= timestamp b)%N) ->
  chronological (l1 ++ l2)%list.
Proof.
  unfold chronological. intros H1 H2 Hcross.
  apply StronglySorted_Sorted.
  apply strongly_sorted_app; try assumption;
    now apply Sorted_StronglySorted; [apply timestamp_le_trans|].
Qed.

Lemma extends_refl (w : World) : extends w w.
Proof.
  split; [lia|]. exists []. rewrite app_nil_r.
  repeat split; constructor.
Qed.

Lemma extends_trans (w0 w1 w2 : World) :
  extends w0 w1 -> extends w1 w2 -> extends w0 w2.
Proof.
  intros (Hc1 & n1 & Hs1 & Ho1 & Hb1) (Hc2 & n2 & Hs2 & Ho2 & Hb2).
  rewrite Forall_forall in Hb1, Hb2.
  split; [lia|]. exists (n1 ++ n2)%list. split; [|split].
  - rewrite Hs2, Hs1. now rewrite app_assoc.
  - apply chronological_app; try assumption.
    intros a b Ha Hb. specialize (Hb1 a Ha). specialize (Hb2 b Hb). lia.
  - apply Forall_forall. intros s Hin. apply in_app_or in Hin.
    destruct Hin as [Hin|Hin];
      [specialize (Hb1 s Hin)|specialize (Hb2 s Hin)]; lia.
Qed.

(** Worlds with the same store: only the clock has to be checked. *)
Lemma extends_same_store (w w' : World) :
  (clock w <= clock w')%N -> data w' = data w -> extends w w'.
Proof.
  intros Hc Hd. split; [exact Hc|]. exists [].
  unfold store. rewrite Hd, app_nil_r. repeat split; constructor.
Qed.

(** A store in order stays in order when the world is extended. *)
Lemma extends_sound (w w' : World) : sound w -> extends w w' -> sound w'.
Proof.
  intros (Hsorted & Hpast) (Hc & new & Hs & Ho & Hb).
  rewrite Forall_forall in Hpast, Hb.
  split.
  - rewrite Hs. apply chronological_app; try assumption.
    intros a b Ha Hin. specialize (Hpast a Ha). specialize (Hb b Hin). lia.
  - rewrite Hs. apply Forall_forall. intros s Hin. apply in_app_or in Hin.
    destruct Hin as [Hin|Hin];
      [specialize (Hpast s Hin)|specialize (Hb s Hin)]; lia.
Qed.

Lemma steady_ret {A : Type} (a : A) : steady (ret a).
Proof. intros w. apply extends_refl. Qed.

Lemma steady_raise {A : Type} (e : Exn) : steady (@raise A e).
Proof. intros w. apply extends_refl. Qed.

Lemma steady_bind {A B : Type} (m : M A) (k : A -> M B) :
  steady m -> (forall a, steady (k a)) -> steady (bind m k).
Proof.
  intros Hm Hk w. unfold bind. specialize (Hm w).
  destruct (m w) as [[a|e] w1]; cbn [snd] in *.
  - eapply extends_trans; [exact Hm|apply Hk].
  - exact Hm.
Qed.

Lemma steady_try_except {A : Type} (body handler : M A) (catches : Exn -> bool) :
  steady body -> steady handler -> steady (try_except body catches handler).
Proof.
  intros Hb Hh w. unfold try_except. specialize (Hb w).
  destruct (body w) as [[a|e] w1]; cbn [snd] in *; [exact Hb|].
  destruct (catches e); [|exact Hb].
  eapply extends_trans; [exact Hb|apply Hh].
Qed.

Lemma steady_for_each {A : Type} (l : list A) (body : A -> M unit) :
  (forall x, steady (body x)) -> steady (for_each l body).
Proof.
  intros Hbody. induction l as [|x l IH]; cbn [for_each].
  - apply steady_ret.
  - apply steady_bind; [apply Hbody|intros _; exact IH].
Qed.

Lemma steady_if {A : Type} (c : bool) (m1 m2 : M A) :
  steady m1 -> steady m2 -> steady (if c then m1 else m2).
Proof. now destruct c. Qed.

(** A primitive that keeps the clock and the session state. *)
Ltac same_store := intros w; apply extends_same_store; cbn; [lia|reflexivity].

Lemma steady_emit (e : Element) : steady (emit e).
Proof. same_store. Qed.

Lemma steady_st_button (key label : str) : steady (st_button key label).
Proof. same_store. Qed.

Lemma steady_st_columns (n : nat) : steady (st_columns n).
Proof. same_store. Qed.

Lemma steady_col_button (c : Column) (label : str) :
  steady (col_button c label).
Proof. same_store. Qed.

Lemma steady_getitem {A : Type} (l : list A) (i : nat) : steady (getitem l i).
Proof.
  unfold getitem. destruct (nth_error l i);
    [apply steady_ret|apply steady_raise].
Qed.

Lemma steady_get_data : steady get_data.
Proof.
  intros w. unfold get_data. destruct (data w); apply extends_refl.
Qed.

Lemma steady_get_frame : steady get_frame.
Proof.
  intros w. unfold get_frame. destruct (data w); apply extends_refl.
Qed.

Lemma steady_option_menu (options : list str) : steady (option_menu options).
Proof. same_store. Qed.

Lemma steady_send_command (ser : option Serial) (command : str) :
  steady (send_command ser command).
Proof.
  intros w. destruct (send_command ser command w) as [out w1] eqn:Hsend.
  destruct (send_command_frame _ _ _ _ _ Hsend) as (Hd & _ & _ & _ & _ & _ & Hc).
  now apply extends_same_store.
Qed.

Lemma steady_initialize_session_state : steady initialize_session_state.
Proof.
  intros w. unfold initialize_session_state.
  destruct (data w) as [df|] eqn:Hd; cbn [snd]; [apply extends_refl|].
  split; [cbn; lia|]. exists []. unfold store. cbn. rewrite Hd.
  repeat split; constructor.
Qed.

Lemma steady_get_serial_connection : steady get_serial_connection.
Proof.
  intros w. unfold get_serial_connection, open_serial.
  destruct (conn_cache w) as [[ser shown]|].
  - apply extends_same_store; cbn; [lia|reflexivity].
  - destruct (open_error w); apply extends_same_store; cbn;
      solve [lia|reflexivity].
Qed.

(** The one place where the store changes: a sample stamped with the
    current time is put after the rows already there. *)
Lemma steady_record (x : float) :
  steady (now <- Timestamp_now ;;
          old <- get_frame ;;
          put_frame (pd_concat old (new_data now x))).
Proof.
  intros w. unfold bind, Timestamp_now, get_frame, put_frame, pd_concat.
  destruct (data w) as [df|] eqn:Hd; cbn [snd]; [|apply extends_refl].
  split; [cbn; lia|]. exists [mkSample (clock w) x].
  unfold store. cbn. rewrite Hd. split; [reflexivity|]. split.
  - repeat constructor.
  - repeat constructor; cbn; lia.
Qed.

Create HintDb steady.
#[local] Hint Resolve steady_ret steady_raise steady_emit steady_st_button
  steady_st_columns steady_col_button steady_getitem steady_get_data
  steady_get_frame steady_option_menu steady_send_command steady_initialize_session_state
  steady_get_serial_connection steady_record : steady.

(** Takes a program apart along its binds, loops and branches. *)
Ltac steady_steps :=
  repeat first
    [ solve [auto with steady]
    | apply steady_bind; [|intros ?]
    | apply steady_for_each; intros ?
    | apply steady_try_except
    | apply steady_if
    | match goal with |- steady (let '(_, _) := ?p in _) => destruct p end ].

Lemma steady_read_current (f : str -> option float) (ser : option Serial) :
  steady (read_current f ser).
Proof.
  unfold read_current, py_float, st_error. steady_steps.
  destruct (f _); steady_steps.
Qed.

Lemma steady_display_current_reading : steady display_current_reading.
Proof.
  unfold display_current_reading, iloc_last, st_metric. steady_steps.
Qed.

Lemma steady_display_current_chart : steady display_current_chart.
Proof. unfold display_current_chart. steady_steps. Qed.

#[local] Hint Resolve steady_read_current steady_display_current_reading
  steady_display_current_chart : steady.

Lemma steady_monitoring (f : str -> option float) (ser : option Serial) :
  steady (monitoring f ser).
Proof. unfold monitoring, st_subheader. steady_steps. Qed.

Lemma steady_bulb_control (ser : option Serial) : steady (bulb_control ser).
Proof.
  unfold bulb_control, toggle_body, st_subheader, st_write. steady_steps.
Qed.

Lemma steady_status_display (ser : option Serial) :
  steady (status_display ser).
Proof.
  unfold status_display, col_write. steady_steps.
Qed.

Lemma steady_data_analytics : steady data_analytics.
Proof.
  unfold data_analytics, st_subheader, st_write. steady_steps.
Qed.

#[local] Hint Resolve steady_monitoring steady_bulb_control
  steady_status_display steady_data_analytics : steady.

Lemma steady_main (f : str -> option float) : steady (main f).
Proof.
  unfold main, system_control, current_monitoring, st_title, st_markdown,
    st_subheader, st_error, st_write.
  steady_steps.
Qed.

Lemma steady_script (f : str -> option float) : steady (script f).
Proof.
  pose proof (steady_main f) as Hmain.
  unfold script, st_markdown. steady_steps.
Qed.

(** A run extends the world the session was left in. *)
Lemma rerun_extends (f : str -> option float) (w : World) (i : RunInput) :
  extends w (rerun f w i).
Proof.
  unfold rerun.
  eapply extends_trans; [|apply steady_script].
  apply extends_same_store; cbn; [lia|reflexivity].
Qed.

Lemma session_extends (f : str -> option float) (runs : list RunInput) :
  forall w : World, extends w (session f w runs).
Proof.
  induction runs as [|i runs IH]; intros w; cbn [session fold_left].
  - apply extends_refl.
  - eapply extends_trans; [apply rerun_extends|apply IH].
Qed.

(** C5: over any session (any sequence of runs: reads, toggles, status
    queries, views, with any answers of the device), the store is only
    appended to: the samples it held are still there, unchanged and in the
    same places, followed by the new ones, and the whole is in
    non-decreasing order of timestamps, provided it was so at the start and
    held no sample from the future. *)
Theorem sample_store_append_only :
  forall (float_of_str : str -> option float) (runs : list RunInput)
         (w : World),
    chronological (store w) ->
    Forall (fun s => (timestamp s <= clock w)%N) (store w) ->
    exists new : DataFrame,
      store (session float_of_str w runs) = (store w ++ new)%list
      /\ chronological (store (session float_of_str w runs)).
Proof.
  intros f runs w Hsorted Hpast.
  pose proof (session_extends f runs w) as Hext.
  destruct (extends_sound w _ (conj Hsorted Hpast) Hext) as [Hfinal _].
  destruct Hext as (_ & new & Hs & _).
  exists new. split; [exact Hs|exact Hfinal].
Qed.

Lemma sample_store_append_only_witness :
  exists new : DataFrame,
    store (session plain_decimal demo_world demo_runs)
    = (store demo_world ++ new)%list
    /\ chronological (store (session plain_decimal demo_world demo_runs)).
Proof.
  apply (sample_store_append_only plain_decimal demo_runs demo_world).
  - unfold chronological. cbn. repeat constructor.
  - cbn. repeat constructor. cbn. discriminate.
Defined.

(** The session of the examples, run: the valid readings are stored with
    the time of their exchange, the invalid one leaves no trace in the
    store. *)
Example session_store_example :
  store (session plain_decimal demo_world demo_runs)
  = [mkSample 2 0.5%float; mkSample 100000015 12.5%float;
     mkSample 400000032 3%float].
Proof. vm_compute. reflexivity. Qed.

(** ** The dtype of the store *)

Lemma typed_same {A : Type} (m : M A) :
  (forall w, data (snd (m w)) = data w
             /\ data_dtype (snd (m w)) = data_dtype w) ->
  typed m.
Proof.
  intros H w Hw. destruct (H w) as [Hd Ht]. unfold object_store in *.
  now rewrite Hd, Ht.
Qed.

Lemma typed_ret {A : Type} (a : A) : typed (ret a).
Proof. now apply typed_same. Qed.

Lemma typed_raise {A : Type} (e : Exn) : typed (@raise A e).
Proof. now apply typed_same. Qed.

Lemma typed_bind {A B : Type} (m : M A) (k : A -> M B) :
  typed m -> (forall a, typed (k a)) -> typed (bind m k).
Proof.
  intros Hm Hk w Hw. unfold bind. specialize (Hm w Hw).
  destruct (m w) as [[a|e] w1]; cbn [snd] in *; [now apply Hk|exact Hm].
Qed.

Lemma typed_for_each {A : Type} (l : list A) (body : A -> M unit) :
  (forall x, typed (body x)) -> typed (for_each l body).
Proof.
  intros Hbody. induction l as [|x l IH]; cbn [for_each].
  - apply typed_ret.
  - apply typed_bind; [apply Hbody|intros _; exact IH].
Qed.

Lemma typed_try_except {A : Type} (body handler : M A)
      (catches : Exn -> bool) :
  typed body -> typed handler -> typed (try_except body catches handler).
Proof.
  intros Hb Hh w Hw. unfold try_except. specialize (Hb w Hw).
  destruct (body w) as [[a|e] w1]; cbn [snd] in *; [exact Hb|].
  destruct (catches e); [now apply Hh|exact Hb].
Qed.

Lemma typed_if {A : Type} (b : bool) (m1 m2 : M A) :
  typed m1 -> typed m2 -> typed (if b then m1 else m2).
Proof. now destruct b. Qed.

Lemma typed_emit (e : Element) : typed (emit e).
Proof. now apply typed_same. Qed.

Lemma typed_st_button (key label : str) : typed (st_button key label).
Proof. now apply typed_same. Qed.

Lemma typed_st_columns (n : nat) : typed (st_columns n).
Proof. now apply typed_same. Qed.

Lemma typed_col_button (c : Column) (label : str) :
  typed (col_button c label).
Proof. now apply typed_same. Qed.

Lemma typed_option_menu (options : list str) : typed (option_menu options).
Proof. now apply typed_same. Qed.

Lemma typed_getitem {A : Type} (l : list A) (i : nat) : typed (getitem l i).
Proof.
  unfold getitem. destruct (nth_error l i);
    [apply typed_ret|apply typed_raise].
Qed.

Lemma typed_get_data : typed get_data.
Proof.
  intros w Hw. unfold get_data. now destruct (data w).
Qed.

(** An exchange does not touch the frame. *)
Lemma send_command_dtype (ser : option Serial) (command : str) (w : World) :
  data_dtype (snd (send_command ser command w)) = data_dtype w.
Proof.
  destruct w as [t q oe ck sel tr cc d pg o dt].
  unfold send_command. destruct ser as [s|]; run; [|reflexivity].
  link_cases; try reflexivity;
    (destruct q as [|r rest]; [reflexivity|];
     destruct (decode (payload r)); reflexivity).
Qed.

Lemma typed_send_command (ser : option Serial) (command : str) :
  typed (send_command ser command).
Proof.
  apply typed_same. intros w. split; [|apply send_command_dtype].
  destruct (send_command ser command w) as [out w1] eqn:Hsend.
  now destruct (send_command_frame _ _ _ _ _ Hsend) as (Hd & _).
Qed.

Lemma typed_get_serial_connection : typed get_serial_connection.
Proof.
  apply typed_same. intros w. unfold get_serial_connection, open_serial.
  destruct (conn_cache w) as [[ser shown]|]; [now split|].
  destruct (open_error w); split; reflexivity.
Qed.

(** The store is created with dtype [object]. *)
Lemma typed_initialize_session_state : typed initialize_session_state.
Proof.
  intros w Hw. unfold initialize_session_state.
  destruct (data w); [exact Hw|now right].
Qed.

(** A row of floats put after a frame of dtype [object] gives a frame of
    dtype [object]. *)
Lemma typed_record (x : float) :
  typed (now <- Timestamp_now ;;
         old <- get_frame ;;
         put_frame (pd_concat old (new_data now x))).
Proof.
  intros w Hw. unfold bind, Timestamp_now, get_frame, put_frame, pd_concat.
  destruct (data w) as [df|] eqn:Hd; cbn [snd]; [|exact Hw].
  destruct Hw as [Hnone|Ht]; [congruence|].
  right. cbn. now rewrite Ht.
Qed.

Create HintDb typed.
#[local] Hint Resolve typed_ret typed_raise typed_emit typed_st_button
  typed_st_columns typed_col_button typed_getitem typed_get_data
  typed_option_menu typed_send_command typed_initialize_session_state
  typed_get_serial_connection typed_record : typed.

Ltac typed_steps :=
  repeat first
    [ solve [auto with typed]
    | apply typed_bind; [|intros ?]
    | apply typed_for_each; intros ?
    | apply typed_try_except
    | apply typed_if
    | match goal with |- typed (let '(_, _) := ?p in _) => destruct p end ].

Lemma typed_read_current (f : str -> option float) (ser : option Serial) :
  typed (read_current f ser).
Proof.
  unfold read_current, py_float, st_error. typed_steps.
  destruct (f _); typed_steps.
Qed.

(** The views and the analytics tab only render. *)
Lemma typed_renders_only {A : Type} (m : M A) : renders_only m -> typed m.
Proof.
  intros H. apply typed_same. intros w. destruct (H w) as [els ->].
  now split.
Qed.

Lemma renders_display_current_reading : renders_only display_current_reading.
Proof.
  intros w; destruct w as [t q oe ck sel tr cc d pg o dt].
  unfold display_current_reading, iloc_last.
  destruct d as [[|smp df]|].
  - exists []. run. now rewrite app_nil_r.
  - unfold bind at 1, get_data. cbn [data df_empty negb].
    unfold bind at 1, getitem.
    replace (nth_error (rev (map current (smp :: df))) 0)
      with (Some (current (last (smp :: df) (mkSample 0 0%float)))).
    + eexists. run. reflexivity.
    + destruct (exists_last (l := smp :: df)) as (older & latest & ->);
        [discriminate|].
      now rewrite map_app, rev_app_distr, last_last.
  - exists []. run. now rewrite app_nil_r.
Qed.

Lemma renders_display_current_chart : renders_only display_current_chart.
Proof.
  intros w; destruct w as [t q oe ck sel tr cc d pg o dt].
  unfold display_current_chart. destruct d as [[|smp df]|].
  - exists []. run. now rewrite app_nil_r.
  - eexists. run. reflexivity.
  - exists []. run. now rewrite app_nil_r.
Qed.

Lemma renders_data_analytics : renders_only data_analytics.
Proof.
  intros w; destruct w as [t q oe ck sel tr cc d pg o dt].
  unfold data_analytics, st_subheader. destruct d as [[|smp df]|].
  - eexists. run. tidy. reflexivity.
  - eexists. run. tidy. reflexivity.
  - eexists. run. reflexivity.
Qed.

#[local] Hint Resolve typed_read_current : typed.

Lemma typed_script (f : str -> option float) : typed (script f).
Proof.
  pose proof (typed_renders_only _ renders_display_current_reading).
  pose proof (typed_renders_only _ renders_display_current_chart).
  pose proof (typed_renders_only _ renders_data_analytics).
  unfold script, main, system_control, current_monitoring, monitoring,
    bulb_control, toggle_body, status_display, col_write, st_title,
    st_markdown, st_subheader, st_error, st_write.
  typed_steps.
Qed.

(** Over a session that starts without a store, the store is of dtype
    [object] from its creation on. *)
Lemma session_object_store (f : str -> option float) (runs : list RunInput) :
  forall w : World, object_store w -> object_store (session f w runs).
Proof.
  induction runs as [|i runs IH]; intros w Hw; cbn [session fold_left].
  - exact Hw.
  - apply IH. unfold rerun. apply typed_script. exact Hw.
Qed.

(** ** Statistics *)

(** The analytics tab over a store with rows: the table, the chart and
    [describe] of the frame with its dtype. *)
Lemma data_analytics_shown (w : World) (smp : Sample) (df : DataFrame) :
  data w = Some (smp :: df) ->
  data_analytics w
  = (Ok tt,
     set_page (page w ++
               analytics (smp :: df)
                         (describe (mkFrame (data_dtype w) (smp :: df))))%list
              w).
Proof.
  intros Hd. destruct w as [t q oe ck sel tr cc d pg o dt].
  cbn in Hd. subst d. unfold data_analytics, analytics; run. tidy.
  reflexivity.
Qed.

(** C8: the statistics view of the store the code builds.  In a session
    that starts without a store, whenever the store has come to hold
    exactly two samples with currents 1.0 and 3.0, whatever their
    timestamps, [data_analytics] shows the table, the chart and, as summary,
    the rows count = 2, unique = 2, top = 1.0 and freq = 1: the store was
    created without a dtype and [pd.concat] keeps its column of dtype
    [object], for which [describe] reports no mean, minimum or maximum.
    Over the same rows in a column of dtype [float64] the summary has
    count 2, mean 2.0, minimum 1.0 and maximum 3.0.  With an empty store the
    tab shows "No data available for analytics." and no statistics. *)
Theorem data_analytics_summary :
  forall (f : str -> option float) (w0 w : World) (runs : list RunInput)
         (t0 t1 : N),
    let df := [mkSample t0 1%float; mkSample t1 3%float] in
    (data w0 = None ->
     store (session f w0 runs) = df ->
     data_analytics (session f w0 runs)
     = (Ok tt,
        set_page (page (session f w0 runs) ++
                  analytics df (Categorical
                                  (mkCounts 2 2 (Some 1%float) (Some 1%nat))))%list
                 (session f w0 runs)))
    /\ (exists d : Describe,
          data_analytics (set_data_dtype float64 (set_data (Some df) w))
          = (Ok tt,
             set_page (page w ++ analytics df (Numeric d))%list
                      (set_data_dtype float64 (set_data (Some df) w)))
          /\ d_count d = 2%nat /\ d_mean d = 2%float
          /\ d_min d = 1%float /\ d_max d = 3%float)
    /\ data_analytics (set_data (Some []) w)
       = (Ok tt,
          set_page (page w ++
                    [Subheader "Data Analytics and Reporting";
                     Text "No data available for analytics."])%list
                   (set_data (Some []) w)).
Proof.
  intros f w0 w runs t0 t1 df. split; [|split].
  - intros Hnone Hstore.
    assert (Hobj : object_store (session f w0 runs))
      by (apply session_object_store; now left).
    set (w' := session f w0 runs) in *. clearbody w'.
    unfold store in Hstore.
    destruct (data w') as [d|] eqn:Hd; [|discriminate Hstore].
    subst d. destruct Hobj as [Hno|Ht]; [congruence|].
    rewrite (data_analytics_shown w' _ _ Hd), Ht. reflexivity.
  - eexists. split.
    + rewrite (data_analytics_shown
                 (set_data_dtype float64 (set_data (Some df) w)) _ _ eq_refl).
      reflexivity.
    + cbn [d_count d_mean d_min d_max]. repeat split; reflexivity.
  - destruct w as [t q oe ck sel tr cc d pg o dt].
    unfold data_analytics; run. tidy. reflexivity.
Qed.

Lemma data_analytics_summary_witness :
  data_analytics (session plain_decimal two_reads_world two_reads)
  = (Ok tt,
     set_page (page (session plain_decimal two_reads_world two_reads) ++
               analytics [mkSample 100000006 1%float;
                          mkSample 200000012 3%float]
                         (Categorical
                            (mkCounts 2 2 (Some 1%float) (Some 1%nat))))%list
              (session plain_decimal two_reads_world two_reads)).
Proof.
  exact (proj1 (data_analytics_summary plain_decimal two_reads_world
                  two_reads_world two_reads 100000006 200000012)
               eq_refl eq_refl).
Defined.

(** The same session seen from its last run, on the "Report and Data
    Analytics" tab: the page of that run carries the counts, and no
    mean. *)
Example analytics_after_two_reads :
  page (session plain_decimal two_reads_world
          (two_reads ++ [mkRunInput 1 [] None "Report and Data Analytics"]))
  = [PageConfig "UNIVERSITY SCADA DASHBOARD" ":bar_chart:";
     Markdown hide_st_style;
     Title "UNIVERSITY SCADA DASHBOARD";
     Markdown "Monitor and Control System Parameters";
     OptionMenu ["System Control"; "Current Monitoring";
                 "Report and Data Analytics"];
     Subheader "Data Analytics and Reporting";
     Text "Data Overview";
     Table [mkSample 100000006 1%float; mkSample 200000012 3%float];
     Text "Data Chart";
     DataChart [mkSample 100000006 1%float; mkSample 200000012 3%float];
     Text "Summary Statistics";
     Statistics (Categorical (mkCounts 2 2 (Some 1%float) (Some 1%nat)));
     Subheader "Power Control";
     Button "power_button" "Toggle Power"].
Proof. vm_compute. reflexivity. Qed.

(** ** Two decimal places *)

Lemma hundredths_two_digits (frac : Z) :
  (0 <= frac < 100)%Z -> two_digits (hundredths frac) = true.
Proof.
  intros Hfrac.
  assert (Hall : forallb (fun n => two_digits (hundredths (Z.of_nat n)))
                         (seq 0 100) = true) by (vm_compute; reflexivity).
  rewrite forallb_forall in Hall.
  specialize (Hall (Z.to_nat frac)).
  rewrite Z2Nat.id in Hall by lia.
  apply Hall. apply in_seq. lia.
Qed.

Lemma append_assoc (a b c : string) :
  ((a ++ b) ++ c = a ++ (b ++ c))%string.
Proof.
  induction a as [|x a IH]; cbn; [reflexivity|now rewrite IH].
Qed.

(** X20: for every finite number, what [format_2f] gives ends in a point
    and exactly two decimal digits. *)
Lemma format_2f_two_places (x : float) :
  match Prim2SF x with
  | S754_zero _ | S754_finite _ _ _ =>
    exists (lead : str) (d1 d2 : ascii),
      format_2f x = (lead ++ "." ++ String d1 (String d2 EmptyString))%string
      /\ is_digit d1 = true /\ is_digit d2 = true
  | _ => True
  end.
Proof.
  unfold format_2f. destruct (Prim2SF x) as [s|s| |s m e]; try exact I.
  - exists (sign_str s ++ "0")%string, "0"%char, "0"%char.
    destruct s; repeat split.
  - set (h := if (0 <=? e)%Z then _ else _).
    pose proof (hundredths_two_digits (h mod 100)
                  (Z.mod_pos_bound h 100 eq_refl)) as Htwo.
    fold (hundredths (h mod 100)).
    destruct (hundredths (h mod 100)) as [|d1 [|d2 [|? ?]]];
      try discriminate Htwo.
    apply andb_prop in Htwo. destruct Htwo as [H1 H2].
    exists (sign_str s ++ fmt_Z (h / 100))%string, d1, d2.
    rewrite append_assoc. repeat split; assumption.
Qed.

(** ** Without a connection *)

(** With a null handle the status is the error text, which is not empty
    and holds no comma: the display shows it as the one row 0. *)
Example status_display_no_connection (w : World) :
  status_display None w
  = (Ok tt,
     set_page (page w ++
               [Columns 5;
                InColumn (mkColumn (List.length (page w)) 0)
                         (Text "BULD-BUTTON 0: Error: No serial connection")])%list
              w).
Proof.
  rewrite (status_display_rows None w w "Error: No serial connection" eq_refl).
  reflexivity.
Qed.

(** Bytes that are not UTF-8 make [send_command] raise: the error is not
    turned into a response text. *)
Example send_command_garbled :
  fst (send_command (Some arduino) "READ"
         (fresh 0 [mkReply 1 (String (ascii_of_N 255) LF)]))
  = Raise UnicodeDecodeError.
Proof. reflexivity. Qed.

Example format_2f_examples :
  map format_2f [0.125; 2.5; 1234.5; (-0.75); 1e22; infinity; nan]%float
  = ["0.12"; "2.50"; "1234.50"; "-0.75"; "10000000000000000000000.00";
     "inf"; "nan"].
Proof. vm_compute. reflexivity. Qed.

Example strip_example :
  strip ("  12.5 " ++ String (ascii_of_N 13) LF) = "12.5".
Proof. reflexivity. Qed.

Example split_examples :
  split "," "ON,OFF" = ["ON"; "OFF"]
  /\ split "," "" = [""]
  /\ split "," "a,,b," = ["a"; ""; "b"; ""].
Proof. repeat split. Qed.

(** ** The connection is opened once *)

Lemma skipn_length_app {A : Type} (l1 l2 : list A) :
  skipn (List.length l1) (l1 ++ l2)%list = l2.
Proof.
  induction l1 as [|x l1 IH]; [reflexivity|exact IH].
Qed.

(** Whatever the world, a call returns a handle or the null handle and
    leaves it in the cache. *)
Lemma get_serial_connection_fills_cache (w : World) :
  exists (ser : option Serial) (shown : list Element),
    fst (get_serial_connection w) = Ok ser
    /\ conn_cache (snd (get_serial_connection w)) = Some (ser, shown).
Proof.
  unfold get_serial_connection, open_serial.
  destruct (conn_cache w) as [[ser shown]|] eqn:Hc.
  - exists ser, shown. cbn. now rewrite Hc.
  - destruct (open_error w) as [e|]; cbn; eexists _, _; split; reflexivity.
Qed.

Lemma get_serial_connection_hit (w : World) (ser : option Serial)
      (shown : list Element) :
  conn_cache w = Some (ser, shown) ->
  get_serial_connection w = (Ok ser, set_page (page w ++ shown)%list w).
Proof.
  intros Hc. unfold get_serial_connection. now rewrite Hc.
Qed.

(** X1: once [get_serial_connection] has run, what it returned is what
    every later call returns, in any world that holds the same cache entry:
    the port is not opened again, whether it has become available or has
    gone since, and the entry stays. *)
Theorem get_serial_connection_cached :
  forall w w2 : World,
    conn_cache w2 = conn_cache (snd (get_serial_connection w)) ->
    fst (get_serial_connection w2) = fst (get_serial_connection w)
    /\ conn_cache (snd (get_serial_connection w2)) = conn_cache w2
    /\ io (snd (get_serial_connection w2)) = io w2.
Proof.
  intros w w2 H2.
  destruct (get_serial_connection_fills_cache w) as (ser & shown & Hr & Hc).
  rewrite Hc in H2. rewrite Hr.
  rewrite (get_serial_connection_hit w2 ser shown H2).
  repeat split.
Qed.

Lemma get_serial_connection_cached_witness :
  fst (get_serial_connection
         (mkWorld 9 [] None None "System Control" [] 
                  (conn_cache (snd (get_serial_connection unplugged)))
                  None []))
  = Ok None.
Proof.
  apply (get_serial_connection_cached
           unplugged
           (mkWorld 9 [] None None "System Control" []
                    (conn_cache (snd (get_serial_connection unplugged)))
                    None [])).
  reflexivity.
Defined.

(** X2: when the port cannot be opened, the first call of
    [get_serial_connection] does not raise: it shows "Error: " with the
    message of the exception, returns the null handle and caches it. *)
Theorem get_serial_connection_failure :
  forall (w : World) (e : str),
    conn_cache w = None ->
    open_error w = Some e ->
    get_serial_connection w
    = (Ok None,
       set_conn_cache (Some (None, [ErrorBox ("Error: " ++ e)%string]))
         (set_page (page w ++ [ErrorBox ("Error: " ++ e)%string])%list w)).
Proof.
  intros w e Hc Ho. unfold get_serial_connection, open_serial.
  rewrite Hc, Ho. unfold bind, st_error, emit, ret. cbn [page set_page].
  now rewrite skipn_length_app.
Qed.

Lemma get_serial_connection_failure_witness :
  get_serial_connection unplugged
  = (Ok None,
     mkWorld 0 [] (Some "could not open port") None "System Control" []
             (Some (None, [ErrorBox "Error: could not open port"])) None
             [ErrorBox "Error: could not open port"]).
Proof.
  apply (get_serial_connection_failure unplugged "could not open port");
    reflexivity.
Defined.

(** When the port opens, the first call returns a handle on
    [SERIAL_PORT] at [BAUD_RATE] with the read timeout [TIMEOUT], renders
    nothing and caches the handle. *)
Theorem get_serial_connection_success :
  forall w : World,
    conn_cache w = None ->
    open_error w = None ->
    get_serial_connection w
    = (Ok (Some (mkSerial "/dev/tty.usbmodem141201" 9600 1)),
       set_conn_cache
         (Some (Some (mkSerial "/dev/tty.usbmodem141201" 9600 1), [])) w).
Proof.
  intros w Hc Ho. unfold get_serial_connection, open_serial.
  rewrite Hc, Ho. cbn [page].
  replace (skipn (List.length (page w)) (page w)) with (@nil Element);
    [reflexivity|].
  rewrite <- (app_nil_r (page w)) at 2. now rewrite skipn_length_app.
Qed.

Lemma get_serial_connection_success_witness :
  get_serial_connection (fresh 0 [])
  = (Ok (Some arduino),
     mkWorld 0 [] None None "System Control" [] (Some (Some arduino, []))
             None []).
Proof.
  apply (get_serial_connection_success (fresh 0 [])); reflexivity.
Defined.

(** ** Tokens of a status *)

Lemma split_length (sep : ascii) (s : str) :
  List.length (split sep s) = S (count_char sep s).
Proof.
  induction s as [|c s IH]; [reflexivity|].
  cbn [split count_char]. destruct (Ascii.eqb c sep).
  - cbn [List.length]. now rewrite IH.
  - destruct (split sep s) as [|h t]; cbn [List.length] in *; lia.
Qed.

Lemma split_join (sep : ascii) (s : str) :
  String.concat (String sep EmptyString) (split sep s) = s.
Proof.
  induction s as [|c s IH]; [reflexivity|].
  cbn [split]. destruct (Ascii.eqb_spec c sep) as [->|Hne].
  - destruct (split_not_nil sep s) as (h & t & Hs).
    rewrite Hs in *. cbn in IH |- *. now rewrite IH.
  - destruct (split_not_nil sep s) as (h & t & Hs). rewrite Hs in *.
    destruct t as [|h2 t]; cbn in IH |- *; now rewrite IH.
Qed.

Lemma split_no_sep (sep : ascii) (s : str) :
  Forall (fun t => count_char sep t = 0%nat) (split sep s).
Proof.
  induction s as [|c s IH]; [repeat constructor|].
  cbn [split]. destruct (Ascii.eqb c sep) eqn:Hc.
  - constructor; [reflexivity|exact IH].
  - destruct (split sep s) as [|h t].
    + repeat constructor. cbn. now rewrite Hc.
    + inversion IH as [|? ? Hh Ht]; subst. constructor; [|exact Ht].
      cbn. now rewrite Hc, Hh.
Qed.

(** X3: [split] loses nothing: the tokens joined by the separator are the
    string, no token holds the separator, and there is one token more than
    separators. *)
Theorem split_concat :
  forall (sep : ascii) (s : str),
    String.concat (String sep EmptyString) (split sep s) = s
    /\ Forall (fun t => count_char sep t = 0%nat) (split sep s)
    /\ List.length (split sep s) = S (count_char sep s).
Proof.
  intros sep s. split; [|split].
  - apply split_join.
  - apply split_no_sep.
  - apply split_length.
Qed.

(** X4: the status display fails exactly when the answer holds five commas
    or more, and then with [IndexError]; with fewer it returns normally. *)
Theorem status_display_outcome :
  forall (ser : option Serial) (w w1 : World) (status : str),
    send_command ser "STATUS" w = (Ok status, w1) ->
    fst (status_display ser w)
    = if (5 <=? count_char "," status)%nat then Raise IndexError else Ok tt.
Proof.
  intros ser w w1 status Hsend.
  rewrite (status_display_rows _ _ _ _ Hsend).
  destruct status as [|c status]; [reflexivity|].
  cbn [truthy]. cbv zeta. rewrite split_length.
  destruct (Nat.leb_spec (S (count_char "," (String c status))) 5);
    destruct (Nat.leb_spec 5 (count_char "," (String c status)));
    try lia; reflexivity.
Qed.

Lemma status_display_outcome_witness :
  fst (status_display (Some arduino) (fresh 0 [mkReply 3 ("1,0,1,,,0" ++ LF)]))
  = Raise IndexError.
Proof.
  apply (status_display_outcome
           (Some arduino) (fresh 0 [mkReply 3 ("1,0,1,,,0" ++ LF)])
           (snd (send_command (Some arduino) "STATUS"
                   (fresh 0 [mkReply 3 ("1,0,1,,,0" ++ LF)])))
           "1,0,1,,,0").
  reflexivity.
Defined.

(** X5: for an answer that is not empty and holds fewer than five commas,
    the status display shows the whole answer: one row per token, in the
    slots 0, 1, ... in order, and the values of the rows joined by commas
    are the answer. *)
Theorem status_display_shows_all :
  forall (ser : option Serial) (w w1 : World) (status : str),
    send_command ser "STATUS" w = (Ok status, w1) ->
    status <> "" ->
    (count_char "," status < 5)%nat ->
    exists states : list str,
      status_display ser w
      = (Ok tt,
         set_page (page w1 ++
                   Columns 5
                   :: status_rows (List.length (page w1)) 0 states)%list w1)
      /\ List.length states = S (count_char "," status)
      /\ String.concat "," states = status.
Proof.
  intros ser w w1 status Hsend Hne Hfew.
  exists (split "," status).
  rewrite (status_display_rows _ _ _ _ Hsend).
  pose proof (split_join "," status) as Hjoin.
  pose proof (split_length "," status) as Hlen.
  destruct status as [|c status]; [congruence|].
  cbn [truthy]. cbv zeta. rewrite Hlen.
  destruct (Nat.leb_spec (S (count_char "," (String c status))) 5); [|lia].
  repeat split; assumption.
Qed.

Lemma status_display_shows_all_witness :
  exists states : list str,
    status_display (Some arduino) (fresh 0 [mkReply 3 ("ON,OFF" ++ LF)])
    = (Ok tt,
       set_page ([] ++ Columns 5 :: status_rows 0 0 states)%list
                (snd (send_command (Some arduino) "STATUS"
                        (fresh 0 [mkReply 3 ("ON,OFF" ++ LF)]))))
    /\ List.length states = 2%nat
    /\ String.concat "," states = "ON,OFF".
Proof.
  apply (status_display_shows_all
           (Some arduino) (fresh 0 [mkReply 3 ("ON,OFF" ++ LF)])
           (snd (send_command (Some arduino) "STATUS"
                   (fresh 0 [mkReply 3 ("ON,OFF" ++ LF)])))
           "ON,OFF").
  - reflexivity.
  - discriminate.
  - cbn. lia.
Defined.

(** ** What a run puts on the line *)

Section Trace.

Variable ck : option str.
Variable tab : str.
Variable ser : option Serial.
Variable f : str -> option float.

Lemma scene_frame (w w' : World) :
  clicked w' = clicked w -> selected w' = selected w ->
  conn_cache w' = conn_cache w -> open_error w' = open_error w ->
  (scene ck tab ser) w -> (scene ck tab ser) w'.
Proof.
  unfold scene, handle_of. intros -> -> -> ->. exact (fun H => H).
Qed.

(** A step that stays off the line. *)
Lemma emits_quiet {A : Type} (m : M A) (R : A -> Prop) :
  (forall w, (scene ck tab ser) w ->
     (scene ck tab ser) (snd (m w)) /\ io (snd (m w)) = io w
     /\ forall a, fst (m w) = Ok a -> R a) ->
  emits (scene ck tab ser) [] R m.
Proof.
  intros H w Hw. destruct (H w Hw) as (Hsc & Hio & HR).
  split; [exact Hsc|]. exists [], None, []. cbn. rewrite app_nil_r.
  split; [exact Hio|]. split; [reflexivity|]. split; [|congruence].
  intros a Ha. auto.
Qed.

Lemma emits_weaken {A : Type} (m : M A) (cmds cmds' : list str)
      (R R' : A -> Prop) :
  cmds = cmds' -> (forall a, R a -> R' a) ->
  emits (scene ck tab ser) cmds R m -> emits (scene ck tab ser) cmds' R' m.
Proof.
  intros <- HR H w Hw.
  destruct (H w Hw) as (Hsc & exs & broken & rest & Hio & Hc & Hok & Hbr).
  split; [exact Hsc|]. exists exs, broken, rest.
  split; [exact Hio|]. split; [exact Hc|]. split; [|exact Hbr].
  intros a Ha. destruct (Hok a Ha) as (Hb & Hr & HRa). auto.
Qed.

Lemma transcript_app (e1 e2 : list (str * bytes)) :
  transcript (e1 ++ e2) = (transcript e1 ++ transcript e2)%list.
Proof. apply flat_map_app. Qed.

(** No command: no exchange, whole or cut short. *)
Lemma off_the_line (exs : list (str * bytes)) (broken : option str)
      (rest : list str) :
  [] = (map fst exs ++ attempted broken ++ rest)%list ->
  exs = [] /\ broken = None /\ rest = [].
Proof.
  intros H. symmetry in H. apply app_eq_nil in H. destruct H as [Hexs H].
  apply app_eq_nil in H. destruct H as [Hb Hr].
  apply map_eq_nil in Hexs. destruct broken; [discriminate|]. auto.
Qed.

Lemma emits_bind {A B : Type} (m : M A) (k : A -> M B) (c1 c2 : list str)
      (R : A -> Prop) (R' : B -> Prop) :
  emits (scene ck tab ser) c1 R m ->
  (forall a, R a -> emits (scene ck tab ser) c2 R' (k a)) ->
  emits (scene ck tab ser) (c1 ++ c2) R' (bind m k).
Proof.
  intros Hm Hk w Hw. unfold bind.
  destruct (Hm w Hw) as (Hsc & exs & broken & rest & Hio & Hc & Hok & Hbr).
  destruct (m w) as [[a|e] w1]; cbn [fst snd] in *.
  - destruct (Hok a eq_refl) as (-> & -> & Ha).
    destruct (Hk a Ha w1 Hsc)
      as (Hsc2 & exs2 & broken2 & rest2 & Hio2 & Hc2 & Hok2 & Hbr2).
    split; [exact Hsc2|]. exists (exs ++ exs2)%list, broken2, rest2.
    rewrite Hio2, Hio, transcript_app, Hc, Hc2, map_app. cbn [cut_short attempted].
    rewrite !app_nil_r, <- !app_assoc. cbn [app].
    split; [reflexivity|]. split; [reflexivity|]. split; [exact Hok2|exact Hbr2].
  - split; [exact Hsc|]. exists exs, broken, (rest ++ c2)%list.
    rewrite Hio, Hc, <- !app_assoc.
    split; [reflexivity|]. split; [reflexivity|]. split; [discriminate|].
    intros Hb. specialize (Hbr Hb). congruence.
Qed.

Lemma emits_for_each {A : Type} (l : list A) (body : A -> M unit)
      (c : A -> list str) :
  (forall x, In x l -> emits (scene ck tab ser) (c x) (fun _ => True) (body x)) ->
  emits (scene ck tab ser) (flat_map c l) (fun _ => True) (for_each l body).
Proof.
  induction l as [|x l IH]; intros Hbody; cbn [for_each flat_map].
  - apply emits_quiet. intros w Hw.
    split; [exact Hw|split; [reflexivity|intros; exact I]].
  - apply emits_bind with (R := fun _ => True).
    + apply Hbody. now left.
    + intros _ _. apply IH. intros y Hy. apply Hbody. now right.
Qed.

(** [try] and [except] when neither side touches the line. *)
Lemma emits_try_except {A : Type} (body handler : M A) (catches : Exn -> bool) :
  emits (scene ck tab ser) [] (fun _ => True) body ->
  emits (scene ck tab ser) [] (fun _ => True) handler ->
  emits (scene ck tab ser) [] (fun _ => True) (try_except body catches handler).
Proof.
  intros Hb Hh w Hw. unfold try_except.
  destruct (Hb w Hw) as (Hsc & exs & broken & rest & Hio & Hc & _).
  apply off_the_line in Hc. destruct Hc as (-> & -> & ->).
  cbn in Hio. rewrite app_nil_r in Hio.
  destruct (body w) as [[a|e] w1]; cbn [fst snd] in *.
  - split; [exact Hsc|]. exists [], None, []. cbn. rewrite app_nil_r.
    repeat split; auto; congruence.
  - destruct (catches e).
    + destruct (Hh w1 Hsc) as (Hsc2 & exs2 & broken2 & rest2 & Hio2 & Hc2 & _).
      apply off_the_line in Hc2. destruct Hc2 as (-> & -> & ->).
      split; [exact Hsc2|]. exists [], None, [].
      rewrite Hio2, Hio. cbn. rewrite !app_nil_r. repeat split; auto; congruence.
    + split; [exact Hsc|]. exists [], None, []. cbn. rewrite app_nil_r.
      repeat split; auto; congruence.
Qed.

(** Steps that change only the page, the clock or the session state. *)
Ltac quiet_step :=
  apply emits_quiet; intros w Hw;
  cbv [ret raise emit st_columns put_frame Timestamp_now fst snd];
  split;
  [ first [exact Hw|eapply scene_frame; [| | | |exact Hw]; reflexivity]
  | split; [reflexivity
          |let r := fresh "r" in let Hr := fresh "Hr" in
           intros r Hr; try (injection Hr as <-); auto] ].

Lemma emits_ret {A : Type} (a : A) (R : A -> Prop) :
  R a -> emits (scene ck tab ser) [] R (ret a).
Proof. intros HR. quiet_step. Qed.

Lemma emits_raise {A : Type} (e : Exn) (R : A -> Prop) :
  emits (scene ck tab ser) [] R (@raise A e).
Proof. quiet_step. discriminate. Qed.

Lemma emits_emit (e : Element) : emits (scene ck tab ser) [] (fun _ => True) (emit e).
Proof. quiet_step. Qed.

Lemma emits_st_button (key label : str) :
  emits (scene ck tab ser) [] (fun b => b = was ck key) (st_button key label).
Proof.
  apply emits_quiet; intros w Hw; cbn. split; [|split; [reflexivity|]].
  - eapply scene_frame; [| | | |exact Hw]; reflexivity.
  - intros a Ha. injection Ha as <-. unfold was_clicked, was.
    destruct Hw as (-> & _). reflexivity.
Qed.

Lemma emits_col_button (c : Column) (label : str) :
  emits (scene ck tab ser) [] (fun b => b = was ck label) (col_button c label).
Proof.
  apply emits_quiet; intros w Hw; cbn. split; [|split; [reflexivity|]].
  - eapply scene_frame; [| | | |exact Hw]; reflexivity.
  - intros a Ha. injection Ha as <-. unfold was_clicked, was.
    destruct Hw as (-> & _). reflexivity.
Qed.

Lemma emits_st_columns (n : nat) :
  emits (scene ck tab ser) [] (fun _ => True) (st_columns n).
Proof. quiet_step. Qed.

Lemma emits_getitem {A : Type} (l : list A) (i : nat) :
  emits (scene ck tab ser) [] (fun _ => True) (getitem l i).
Proof.
  unfold getitem. destruct (nth_error l i);
    [now apply emits_ret|apply emits_raise].
Qed.

Lemma emits_get_data : emits (scene ck tab ser) [] (fun _ => True) get_data.
Proof.
  apply emits_quiet; intros w Hw. unfold get_data.
  destruct (data w); cbn; (split; [exact Hw|split; [reflexivity|auto]]).
Qed.

Lemma emits_get_frame : emits (scene ck tab ser) [] (fun _ => True) get_frame.
Proof.
  apply emits_quiet; intros w Hw. unfold get_frame.
  destruct (data w); cbn; (split; [exact Hw|split; [reflexivity|auto]]).
Qed.

Lemma emits_put_frame (fr : Frame) :
  emits (scene ck tab ser) [] (fun _ => True) (put_frame fr).
Proof. quiet_step. Qed.

Lemma emits_Timestamp_now :
  emits (scene ck tab ser) [] (fun _ => True) Timestamp_now.
Proof. quiet_step. Qed.

Lemma emits_option_menu (options : list str) :
  emits (scene ck tab ser) [] (fun sel => sel = tab) (option_menu options).
Proof.
  apply emits_quiet; intros w Hw; cbn. split; [|split; [reflexivity|]].
  - eapply scene_frame; [| | | |exact Hw]; reflexivity.
  - intros a Ha. injection Ha as <-. now destruct Hw as (_ & -> & _).
Qed.

Lemma emits_initialize_session_state :
  emits (scene ck tab ser) [] (fun _ => True) initialize_session_state.
Proof.
  apply emits_quiet; intros w Hw. unfold initialize_session_state.
  destruct (data w); cbn; (split; [|split; [reflexivity|auto]]);
    first [exact Hw|eapply scene_frame; [| | | |exact Hw]; reflexivity].
Qed.

Lemma emits_get_serial_connection :
  emits (scene ck tab ser) [] (fun s => s = ser) get_serial_connection.
Proof.
  apply emits_quiet; intros w Hw.
  destruct Hw as (Hck & Htab & Hser). unfold handle_of in Hser.
  unfold get_serial_connection, open_serial, scene, handle_of.
  destruct (conn_cache w) as [[s shown]|] eqn:Hcc.
  - cbn. rewrite Hcc.
    split; [split; [|split]; assumption|].
    split; [reflexivity|]. intros a Ha. injection Ha as <-. exact Hser.
  - destruct (open_error w) as [e|] eqn:Hoe; cbn;
      (split; [split; [|split]; assumption|]);
      (split; [reflexivity|]); intros a Ha; injection Ha as <-; exact Hser.
Qed.

(** An exchange: with a handle, the one command; without, nothing. *)
Lemma emits_send_command (s : option Serial) (c : str) :
  emits (scene ck tab ser) (wire s c) (fun _ => True) (send_command s c).
Proof.
  intros w Hw.
  destruct (send_command s c w) as [out w1] eqn:Hsend. cbn [fst snd].
  destruct (send_command_frame _ _ _ _ _ Hsend)
    as (_ & _ & Hcc & Hck & Hsel & Hoe & _).
  split; [eapply scene_frame; eauto|].
  destruct s as [s|]; cbn [wire].
  - assert (Hwhole : out <> Raise SerialException ->
              exists (exs : list (str * bytes)) (broken : option str)
                     (rest : list str),
                io w1 = (io w ++ transcript exs ++ cut_short broken)%list
                /\ [c] = (map fst exs ++ attempted broken ++ rest)%list
                /\ (forall a : str, out = Ok a ->
                      broken = None /\ rest = [] /\ True)
                /\ (broken <> None -> out = Raise SerialException)).
    { intros Hout.
      destruct (send_command_trace _ _ _ _ _ Hsend Hout) as (line & Hio).
      exists [(c, line)], None, []. rewrite Hio.
      repeat split; auto; congruence. }
    destruct out as [a|e]; [apply Hwhole; discriminate|].
    destruct (send_command_broken _ _ _ _ _ Hsend) as [->|[-> [Hio|Hio]]].
    + apply Hwhole; discriminate.
    + exists [], None, [c]. rewrite Hio. cbn. rewrite app_nil_r.
      repeat split; try discriminate; congruence.
    + exists [], (Some c), []. rewrite Hio.
      repeat split; try discriminate; congruence.
  - cbn in Hsend. injection Hsend as <- <-.
    exists [], None, []. cbn. rewrite app_nil_r. repeat split; auto; congruence.
Qed.

(** A button and what its click sets off. *)
Lemma emits_when (pressed : bool) (key : str) (cmds : list str)
      (m : M unit) :
  pressed = was ck key ->
  emits (scene ck tab ser) cmds (fun _ => True) m ->
  emits (scene ck tab ser) (if was ck key then cmds else []) (fun _ => True)
        (if pressed then m else ret tt).
Proof.
  intros -> Hm. destruct (was ck key); [exact Hm|now apply emits_ret].
Qed.

(** A bind where one side stays off the line. *)
Lemma emits_then {A B : Type} (m : M A) (k : A -> M B) (c : list str)
      (R : A -> Prop) (R' : B -> Prop) :
  emits (scene ck tab ser) [] R m ->
  (forall a, R a -> emits (scene ck tab ser) c R' (k a)) ->
  emits (scene ck tab ser) c R' (bind m k).
Proof. intros Hm Hk. exact (emits_bind m k [] c R R' Hm Hk). Qed.

Lemma emits_first {A B : Type} (m : M A) (k : A -> M B) (c : list str)
      (R : A -> Prop) (R' : B -> Prop) :
  emits (scene ck tab ser) c R m ->
  (forall a, R a -> emits (scene ck tab ser) [] R' (k a)) ->
  emits (scene ck tab ser) c R' (bind m k).
Proof.
  intros Hm Hk. rewrite <- (app_nil_r c).
  exact (emits_bind m k c [] R R' Hm Hk).
Qed.

Create HintDb emits.
#[local] Hint Resolve emits_emit emits_st_columns emits_getitem emits_get_data
  emits_get_frame emits_put_frame emits_Timestamp_now
  emits_initialize_session_state
  emits_send_command : emits.

(** Steps through a stretch of code that stays off the line. *)
Ltac off_line :=
  repeat first
    [ solve [auto with emits]
    | apply emits_ret; exact I
    | apply emits_raise
    | apply emits_then with (R := fun _ => True); [|intros ? _] ].

Lemma emits_read_current :
  emits (scene ck tab ser) (wire ser "READ") (fun _ => True)
        (read_current f ser).
Proof.
  unfold read_current.
  apply emits_first with (R := fun _ => True); [auto with emits|].
  intros current_str _. apply emits_try_except.
  - unfold py_float. destruct (f current_str) as [x|]; off_line.
  - apply emits_emit.
Qed.

Lemma emits_display_current_reading :
  emits (scene ck tab ser) [] (fun _ => True) display_current_reading.
Proof.
  unfold display_current_reading.
  apply emits_then with (R := fun _ => True); [auto with emits|].
  intros df _. destruct (negb (df_empty df)); [|now apply emits_ret].
  unfold iloc_last, st_metric. off_line.
Qed.

Lemma emits_display_current_chart :
  emits (scene ck tab ser) [] (fun _ => True) display_current_chart.
Proof.
  unfold display_current_chart.
  apply emits_then with (R := fun _ => True); [auto with emits|].
  intros df _. destruct (negb (df_empty df)); off_line.
Qed.

Lemma emits_monitoring :
  emits (scene ck tab ser) (read_commands ser ck) (fun _ => True)
        (monitoring f ser).
Proof.
  unfold monitoring, read_commands, st_subheader.
  apply emits_then with (R := fun _ => True); [apply emits_emit|].
  intros _ _.
  apply emits_then with (R := fun b => b = was ck "Read Current");
    [apply emits_st_button|].
  intros pressed Hp.
  apply emits_first with (R := fun _ => True).
  - apply emits_when; [exact Hp|apply emits_read_current].
  - intros _ _.
    apply emits_then with (R := fun _ => True);
      [apply emits_display_current_reading
      |intros; apply emits_display_current_chart].
Qed.

Lemma emits_toggle_body (cols : list Column) (i : nat) :
  emits (scene ck tab ser)
        (if was ck ("Button " ++ fmt_int i)
         then wire ser ("TOGGLE" ++ fmt_int i) else [])
        (fun _ => True) (toggle_body ser cols i).
Proof.
  unfold toggle_body.
  apply emits_then with (R := fun _ => True); [apply emits_getitem|].
  intros c _.
  apply emits_then with (R := fun b => b = was ck ("Button " ++ fmt_int i));
    [apply emits_col_button|].
  intros pressed Hp. apply emits_when; [exact Hp|].
  apply emits_first with (R := fun _ => True);
    [apply emits_send_command|intros; apply emits_emit].
Qed.

Lemma emits_bulb_control :
  emits (scene ck tab ser) (toggle_commands ser ck) (fun _ => True)
        (bulb_control ser).
Proof.
  unfold bulb_control, toggle_commands, st_subheader.
  apply emits_then with (R := fun _ => True); [apply emits_emit|].
  intros _ _.
  apply emits_then with (R := fun _ => True); [apply emits_st_columns|].
  intros cols _. apply emits_for_each.
  intros i _. apply emits_toggle_body.
Qed.

Lemma flat_map_nil {A B : Type} (l : list A) :
  flat_map (fun _ : A => @nil B) l = [].
Proof. induction l; auto. Qed.

Lemma emits_status_display :
  emits (scene ck tab ser) (wire ser "STATUS") (fun _ => True)
        (status_display ser).
Proof.
  unfold status_display.
  apply emits_first with (R := fun _ => True); [apply emits_send_command|].
  intros status _. destruct (truthy status); [|now apply emits_ret].
  cbv zeta.
  apply emits_then with (R := fun _ => True); [apply emits_st_columns|].
  intros cols _.
  rewrite <- (flat_map_nil (enumerate (split "," status))).
  apply emits_for_each. intros [i state] _. unfold col_write. off_line.
Qed.

Lemma emits_data_analytics :
  emits (scene ck tab ser) [] (fun _ => True) data_analytics.
Proof.
  unfold data_analytics, st_subheader, st_write.
  apply emits_then with (R := fun _ => True); [apply emits_emit|].
  intros _ _.
  apply emits_then with (R := fun _ => True); [apply emits_get_data|].
  intros d _. destruct (df_empty d); off_line.
Qed.

Lemma emits_system_control :
  emits (scene ck tab ser)
        (toggle_commands ser ck ++ wire ser "STATUS"
           ++ read_commands ser ck)%list
        (fun _ => True) (system_control f ser).
Proof.
  unfold system_control, st_subheader.
  apply emits_bind with (R := fun _ => True); [apply emits_bulb_control|].
  intros _ _.
  apply emits_then with (R := fun _ => True); [apply emits_emit|].
  intros _ _.
  apply emits_bind with (R := fun _ => True);
    [apply emits_status_display|intros; apply emits_monitoring].
Qed.

Lemma emits_power :
  emits (scene ck tab ser) (power_commands ser ck) (fun _ => True)
        (pressed <- st_button "power_button" "Toggle Power" ;;
         if pressed : bool then
           response <- send_command ser "POWER" ;;
           st_write ("Power Control Response: " ++ response)
         else ret tt).
Proof.
  unfold power_commands.
  apply emits_then with (R := fun b => b = was ck "power_button");
    [apply emits_st_button|].
  intros pressed Hp. apply emits_when; [exact Hp|].
  apply emits_first with (R := fun _ => True);
    [apply emits_send_command|intros; apply emits_emit].
Qed.

Lemma emits_main :
  emits (scene ck tab ser) (run_commands ser ck tab) (fun _ => True) (main f).
Proof.
  unfold main, run_commands, st_title, st_markdown, st_subheader.
  apply emits_then with (R := fun _ => True); [apply emits_emit|].
  intros _ _.
  apply emits_then with (R := fun _ => True); [apply emits_emit|].
  intros _ _.
  apply emits_then with (R := fun s => s = ser);
    [apply emits_get_serial_connection|].
  intros s ->.
  apply emits_then with (R := fun _ => True);
    [apply emits_initialize_session_state|].
  intros _ _.
  apply emits_then with (R := fun sel => sel = tab);
    [apply emits_option_menu|].
  intros sel ->.
  apply emits_bind with (R := fun _ => True).
  - unfold tab_commands, current_monitoring, st_error.
    destruct (String.eqb tab "Current Monitoring"); [apply emits_monitoring|].
    destruct (String.eqb tab "System Control"); [apply emits_system_control|].
    destruct (String.eqb tab "Report and Data Analytics");
      [apply emits_data_analytics|apply emits_emit].
  - intros _ _.
    apply emits_then with (R := fun _ => True);
      [apply emits_emit|intros; apply emits_power].
Qed.

Lemma emits_script :
  emits (scene ck tab ser) (run_commands ser ck tab) (fun _ => True)
        (script f).
Proof.
  unfold script, st_markdown.
  apply emits_then with (R := fun _ => True); [apply emits_emit|].
  intros _ _.
  apply emits_then with (R := fun _ => True);
    [apply emits_emit|intros; apply emits_main].
Qed.

End Trace.

(** Without a handle a run has nothing to send. *)
Lemma run_commands_offline (ck : option str) (tab : str) :
  run_commands None ck tab = [].
Proof.
  unfold run_commands, tab_commands, toggle_commands, read_commands,
    power_commands, wire.
  cbn [range seq flat_map app].
  repeat match goal with |- context [if ?b then _ else _] => destruct b end;
    reflexivity.
Qed.

(** One click is on one button: a run sends at most one command beside the
    status query, and only commands of the protocol. *)
Lemma run_commands_bound (ser : option Serial) (ck : option str) (tab : str) :
  (List.length (run_commands ser ck tab) <= 2)%nat
  /\ (tab <> "System Control" ->
      List.length (run_commands ser ck tab) <= 1)%nat
  /\ Forall (fun c => In c vocabulary) (run_commands ser ck tab).
Proof.
  destruct ser as [s|]; [|rewrite run_commands_offline; cbn; auto].
  unfold run_commands, tab_commands, toggle_commands, read_commands,
    power_commands, wire, was.
  assert (Hcase : forall l : list str,
             (List.length l <= 1)%nat -> Forall (fun c => In c vocabulary) l ->
             (List.length l <= 2)%nat
             /\ (tab <> "System Control" -> List.length l <= 1)%nat
             /\ Forall (fun c => In c vocabulary) l) by (intros; auto).
  destruct (String.eqb_spec tab "System Control") as [->|Htab].
  - cbn [String.eqb Ascii.eqb Bool.eqb]. cbn [range seq flat_map].
    destruct ck as [k|].
    + do 7 (match goal with
            | |- context [String.eqb k ?key] =>
              destruct (String.eqb_spec k key) as [->|?];
              [cbn; split; [lia|split; [congruence|]];
               repeat (apply Forall_cons; [cbn; tauto|]); apply Forall_nil|]
            end).
      cbn. split; [lia|split; [congruence|]].
      repeat (apply Forall_cons; [cbn; tauto|]); apply Forall_nil.
    + cbn. split; [lia|split; [congruence|]].
      repeat (apply Forall_cons; [cbn; tauto|]); apply Forall_nil.
  - destruct (String.eqb tab "Current Monitoring");
      (destruct ck as [k|]; [|apply Hcase; cbn; [lia|constructor]]);
      repeat (match goal with
            | |- context [String.eqb k ?key] =>
              destruct (String.eqb_spec k key) as [->|?];
              [apply Hcase; cbn;
               [lia|repeat (apply Forall_cons; [cbn; tauto|]); apply Forall_nil]
              |]
            end);
      (apply Hcase; cbn; [lia|constructor]).
Qed.

(** X6: what a run of the script adds to the trace of the line is a
    sequence of exchanges, one for each of the first commands of
    [run_commands] in order: the command of the clicked toggle, then STATUS,
    then READ on the "System Control" tab; READ on "Current Monitoring";
    last POWER; with the null handle, none.  All of them are whole (a write,
    the pause, a read) except that the last can be cut short after the
    pause, when the link fails under the read; the run then ends in
    [SerialException].  When the run returns, every command was exchanged
    and every exchange is whole; when it raises, those before the failure
    were. *)
Theorem run_transcript :
  forall (f : str -> option float) (w : World),
    exists (exs : list (str * bytes)) (broken : option str) (rest : list str),
      io (snd (script f w))
      = (io w ++ transcript exs ++ cut_short broken)%list
      /\ run_commands (handle_of w) (clicked w) (selected w)
         = (map fst exs ++ attempted broken ++ rest)%list
      /\ (fst (script f w) = Ok tt -> broken = None /\ rest = [])
      /\ (broken <> None -> fst (script f w) = Raise SerialException).
Proof.
  intros f w.
  destruct (emits_script (clicked w) (selected w) (handle_of w) f w)
    as (_ & exs & broken & rest & Hio & Hc & Hok & Hbr).
  { repeat split. }
  exists exs, broken, rest.
  split; [exact Hio|]. split; [exact Hc|]. split; [|exact Hbr].
  intros H. destruct (Hok tt H) as (Hb & Hr & _). auto.
Qed.

Lemma prefix_bound (exs : list (str * bytes)) (broken : option str)
      (rest cmds : list str) :
  cmds = (map fst exs ++ attempted broken ++ rest)%list ->
  (List.length (as_attempts exs broken) <= List.length cmds)%nat
  /\ (Forall (fun c => In c vocabulary) cmds ->
      Forall (fun a => In (fst a) vocabulary) (as_attempts exs broken)).
Proof.
  intros ->. unfold as_attempts. rewrite !length_app, !length_map.
  split; [lia|].
  intros H. apply Forall_app in H. destruct H as [H1 H].
  apply Forall_app in H. destruct H as [H2 _].
  apply Forall_app. split.
  - rewrite Forall_map in *. exact H1.
  - rewrite Forall_map. exact H2.
Qed.

Lemma attempts_app (l1 l2 : list (str * option bytes)) :
  attempts (l1 ++ l2) = (attempts l1 ++ attempts l2)%list.
Proof. apply flat_map_app. Qed.

(** The attempts of a run on the line: its whole exchanges, then the one
    cut short. *)
Lemma attempts_as_attempts (exs : list (str * bytes)) (broken : option str) :
  attempts (as_attempts exs broken)
  = (transcript exs ++ cut_short broken)%list.
Proof.
  unfold as_attempts. rewrite attempts_app. f_equal.
  - unfold attempts, transcript. induction exs as [|ex exs IH]; [reflexivity|].
    cbn. now rewrite IH.
  - destruct broken; reflexivity.
Qed.

(** X7: a run, which at most one click has started, makes at most two
    exchanges, the one cut short by a failure of the link counted in, at
    most one off the "System Control" tab and none with the null handle, and
    every command it writes is one of READ, STATUS, POWER,
    TOGGLE0 ... TOGGLE4. *)
Theorem run_exchanges :
  forall (f : str -> option float) (w : World),
    exists atts : list (str * option bytes),
      io (snd (script f w)) = (io w ++ attempts atts)%list
      /\ (List.length atts <= 2)%nat
      /\ (selected w <> "System Control" -> List.length atts <= 1)%nat
      /\ (handle_of w = None -> atts = [])
      /\ Forall (fun a => In (fst a) vocabulary) atts.
Proof.
  intros f w.
  destruct (emits_script (clicked w) (selected w) (handle_of w) f w)
    as (_ & exs & broken & rest & Hio & Hc & _).
  { repeat split. }
  destruct (prefix_bound _ _ _ _ Hc) as [Hlen Hvoc].
  destruct (run_commands_bound (handle_of w) (clicked w) (selected w))
    as (H2 & H1 & Hv).
  exists (as_attempts exs broken).
  split; [now rewrite attempts_as_attempts|]. split; [lia|]. split; [|split].
  - intros Htab. specialize (H1 Htab). lia.
  - intros Hnone. rewrite Hnone, run_commands_offline in Hlen.
    destruct (as_attempts exs broken); [reflexivity|cbn in Hlen; lia].
  - auto.
Qed.

Lemma rerun_handle (f : str -> option float) (w : World) (i : RunInput) :
  handle_of (rerun f w i) = handle_of w.
Proof.
  unfold rerun.
  set (w0 := makeWorld _ _ _ _ _ _ _ _ _ _ _).
  destruct (emits_script (click i) (tab i) (handle_of w) f w0)
    as ((_ & _ & H) & _); [repeat split|exact H].
Qed.

(** What one run of a session adds to the trace. *)
Lemma rerun_trace (f : str -> option float) (w : World) (i : RunInput) :
  exists atts : list (str * option bytes),
    io (rerun f w i) = (io w ++ attempts atts)%list
    /\ Forall (fun a => In (fst a) vocabulary) atts.
Proof.
  unfold rerun. set (w0 := makeWorld _ _ _ _ _ _ _ _ _ _ _).
  destruct (emits_script (clicked w0) (selected w0) (handle_of w0) f w0)
    as (_ & exs & broken & rest & Hio & Hc & _).
  { repeat split. }
  destruct (prefix_bound _ _ _ _ Hc) as [_ Hvoc].
  destruct (run_commands_bound (handle_of w0) (clicked w0) (selected w0))
    as (_ & _ & Hv).
  exists (as_attempts exs broken).
  split; [now rewrite attempts_as_attempts|auto].
Qed.

(** Without a handle a run leaves the trace as it is. *)
Lemma script_offline_io (f : str -> option float) (w : World) :
  handle_of w = None -> io (snd (script f w)) = io w.
Proof.
  intros Hnone.
  destruct (emits_script (clicked w) (selected w) (handle_of w) f w)
    as (_ & exs & broken & rest & Hio & Hc & _).
  { repeat split. }
  rewrite Hnone, run_commands_offline in Hc.
  apply off_the_line in Hc. destruct Hc as (-> & -> & _).
  rewrite Hio. cbn. apply app_nil_r.
Qed.

(** X8: over a whole session the trace of the line grows by exchanges only,
    all of commands of the protocol: each is the write of the command and
    the pause, followed by the read unless the link failed under it.  No
    other bytes are ever written, and no read happens without the write and
    the pause before it. *)
Theorem session_transcript :
  forall (f : str -> option float) (runs : list RunInput) (w : World),
    exists atts : list (str * option bytes),
      io (session f w runs) = (io w ++ attempts atts)%list
      /\ Forall (fun a => In (fst a) vocabulary) atts.
Proof.
  intros f runs. induction runs as [|i runs IH]; intros w.
  - exists []. cbn. rewrite app_nil_r. split; auto.
  - cbn [session fold_left].
    destruct (IH (rerun f w i)) as (atts2 & Hio2 & Hv2).
    destruct (rerun_trace f w i) as (atts1 & Hio1 & Hv1).
    exists (atts1 ++ atts2)%list. split.
    + unfold session in Hio2. rewrite Hio2, Hio1, attempts_app.
      now rewrite <- app_assoc.
    + apply Forall_app. now split.
Qed.

(** ** A run from its first line *)

(** The script is its preamble, then the view of the tab, then the power
    control. *)
Lemma script_steps (f : str -> option float) (w : World) :
  script f w
  = (p <- preamble ;;
     tab_view f (fst p) (snd p) ;;
     power_control (fst p)) w.
Proof.
  destruct w as [t q oe ck sel tr cc d pg].
  unfold script, main, preamble, get_serial_connection, open_serial,
    initialize_session_state, option_menu, st_markdown, st_title, st_error.
  destruct cc as [[s shown]|]; [|destruct oe as [e|]]; destruct d as [df|];
    reflexivity.
Qed.

(** The preamble never raises: it returns the handle of the world and the
    selected tab, with the session state initialised and nothing said on
    the line. *)
Lemma preamble_returns (w : World) :
  exists w0 : World,
    preamble w = (Ok (handle_of w, selected w), w0)
    /\ data w0 = Some (store w)
    /\ io w0 = io w /\ clock w0 = clock w /\ rx w0 = rx w
    /\ clicked w0 = clicked w /\ selected w0 = selected w
    /\ handle_of w0 = handle_of w.
Proof.
  destruct w as [t q oe ck sel tr cc d pg].
  unfold preamble, get_serial_connection, open_serial,
    initialize_session_state, option_menu, st_markdown, st_title, st_error,
    handle_of, store.
  destruct cc as [[s shown]|]; [|destruct oe as [e|]]; destruct d as [df|];
    eexists; (split; [reflexivity|]); cbn; repeat split.
Qed.

(** ** What a run can raise *)

Section Keeps.

Variable E : Exn -> Prop.
Variable ser : option Serial.
Variable f : str -> option float.

Lemma keeps_ret {A : Type} (a : A) (R : A -> Prop) : R a -> keeps E R (ret a).
Proof. intros HR w Hw. now split. Qed.

Lemma keeps_raise {A : Type} (e : Exn) (R : A -> Prop) :
  E e -> keeps E R (@raise A e).
Proof. intros He w Hw. now split. Qed.

Lemma keeps_bind {A B : Type} (m : M A) (k : A -> M B) (R : A -> Prop)
      (R' : B -> Prop) :
  keeps E R m -> (forall a, R a -> keeps E R' (k a)) -> keeps E R' (bind m k).
Proof.
  intros Hm Hk w Hw. unfold bind. destruct (Hm w Hw) as [Harm Hres].
  destruct (m w) as [[a|e] w1]; cbn [fst snd] in *.
  - exact (Hk a Hres w1 Harm).
  - now split.
Qed.

Lemma keeps_weaken {A : Type} (m : M A) (R R' : A -> Prop) :
  (forall a, R a -> R' a) -> keeps E R m -> keeps E R' m.
Proof.
  intros HR Hm w Hw. destruct (Hm w Hw) as [Harm Hres].
  split; [exact Harm|]. destruct (fst (m w)); auto.
Qed.

Lemma keeps_for_each {A : Type} (l : list A) (body : A -> M unit) :
  (forall x, In x l -> keeps E (fun _ => True) (body x)) ->
  keeps E (fun _ => True) (for_each l body).
Proof.
  induction l as [|x l IH]; intros Hbody; cbn [for_each].
  - now apply keeps_ret.
  - apply keeps_bind with (R := fun _ => True).
    + apply Hbody. now left.
    + intros _ _. apply IH. intros y Hy. apply Hbody. now right.
Qed.

(** A step that cannot raise and leaves the session state alone. *)
Lemma keeps_pure {A : Type} (m : M A) (R : A -> Prop) :
  (forall w, data (snd (m w)) = data w
             /\ exists a, fst (m w) = Ok a /\ R a) ->
  keeps E R m.
Proof.
  intros H w Hw. destruct (H w) as (Hd & a & Ha & HR).
  unfold armed in *. rewrite Hd, Ha. now split.
Qed.

Lemma keeps_emit (e : Element) : keeps E (fun _ => True) (emit e).
Proof. apply keeps_pure. intros w. split; [reflexivity|now exists tt]. Qed.

Lemma keeps_st_button (key label : str) :
  keeps E (fun _ => True) (st_button key label).
Proof.
  apply keeps_pure. intros w. split; [reflexivity|].
  now exists (was_clicked key w).
Qed.

Lemma keeps_col_button (c : Column) (label : str) :
  keeps E (fun _ => True) (col_button c label).
Proof.
  apply keeps_pure. intros w. split; [reflexivity|].
  now exists (was_clicked label w).
Qed.

Lemma keeps_st_columns (n : nat) :
  keeps E (fun cols => exists b, cols = map (mkColumn b) (seq 0 n))
        (st_columns n).
Proof.
  apply keeps_pure. intros w. split; [reflexivity|].
  eexists. split; [reflexivity|]. now eexists.
Qed.

Lemma keeps_Timestamp_now : keeps E (fun _ => True) Timestamp_now.
Proof. apply keeps_pure. intros w. split; [reflexivity|now exists (clock w)]. Qed.

Lemma keeps_get_data : keeps E (fun _ => True) get_data.
Proof.
  intros w Hw. unfold get_data, armed in *.
  destruct (data w) as [df|] eqn:Hd; [|congruence].
  cbn. rewrite Hd. now split.
Qed.

Lemma keeps_get_frame : keeps E (fun _ => True) get_frame.
Proof.
  intros w Hw. unfold get_frame, armed in *.
  destruct (data w) as [df|] eqn:Hd; [|congruence].
  cbn. rewrite Hd. now split.
Qed.

(** An index within the list. *)
Lemma keeps_getitem {A : Type} (l : list A) (i : nat) :
  (i < List.length l)%nat -> keeps E (fun _ => True) (getitem l i).
Proof.
  intros Hi. unfold getitem.
  destruct (nth_error l i) eqn:Hn; [now apply keeps_ret|].
  apply nth_error_None in Hn. lia.
Qed.

(** The views, which raise nothing. *)
Lemma keeps_display_current_reading :
  keeps E (fun _ => True) display_current_reading.
Proof.
  unfold display_current_reading.
  apply keeps_bind with (R := fun _ => True); [apply keeps_get_data|].
  intros df _. destruct df as [|smp df]; cbn [df_empty negb];
    [now apply keeps_ret|].
  unfold iloc_last, st_metric.
  apply keeps_bind with (R := fun _ => True);
    [|intros; apply keeps_emit].
  apply keeps_getitem. rewrite length_rev, length_map. cbn. lia.
Qed.

Lemma keeps_display_current_chart :
  keeps E (fun _ => True) display_current_chart.
Proof.
  unfold display_current_chart.
  apply keeps_bind with (R := fun _ => True); [apply keeps_get_data|].
  intros df _. destruct (negb (df_empty df));
    [apply keeps_emit|now apply keeps_ret].
Qed.

Lemma keeps_data_analytics : keeps E (fun _ => True) data_analytics.
Proof.
  unfold data_analytics, st_subheader, st_write.
  apply keeps_bind with (R := fun _ => True); [apply keeps_emit|].
  intros _ _.
  apply keeps_bind with (R := fun _ => True); [apply keeps_get_data|].
  intros d _. destruct (df_empty d); [apply keeps_emit|].
  apply keeps_bind with (R := fun _ => True); [apply keeps_get_frame|].
  intros df _.
  repeat (apply keeps_bind with (R := fun _ => True);
          [apply keeps_emit|intros _ _]).
  apply keeps_emit.
Qed.

(** The code that talks to the device raises what an exchange and the
    status display raise. *)
Hypothesis Hsend : forall c, keeps E (fun _ => True) (send_command ser c).
Hypothesis Hstatus : keeps E (fun _ => True) (status_display ser).

Lemma keeps_read_current : keeps E (fun _ => True) (read_current f ser).
Proof.
  unfold read_current.
  apply keeps_bind with (R := fun _ => True); [apply Hsend|].
  intros current_str _ w Hw. unfold try_except, py_float.
  destruct (f current_str) as [x|].
  - unfold bind, ret, Timestamp_now, get_frame, put_frame.
    unfold armed in Hw. destruct (data w) as [df|] eqn:Hd; [|congruence].
    cbn. split; [discriminate|exact I].
  - cbn. split; [exact Hw|exact I].
Qed.

Lemma keeps_monitoring : keeps E (fun _ => True) (monitoring f ser).
Proof.
  unfold monitoring, st_subheader.
  apply keeps_bind with (R := fun _ => True); [apply keeps_emit|].
  intros _ _.
  apply keeps_bind with (R := fun _ => True); [apply keeps_st_button|].
  intros pressed _.
  apply keeps_bind with (R := fun _ => True).
  - destruct pressed; [apply keeps_read_current|now apply keeps_ret].
  - intros _ _.
    apply keeps_bind with (R := fun _ => True);
      [apply keeps_display_current_reading
      |intros; apply keeps_display_current_chart].
Qed.

Lemma keeps_bulb_control : keeps E (fun _ => True) (bulb_control ser).
Proof.
  unfold bulb_control, st_subheader.
  apply keeps_bind with (R := fun _ => True); [apply keeps_emit|].
  intros _ _.
  apply keeps_bind
    with (R := fun cols => exists b, cols = map (mkColumn b) (seq 0 5));
    [apply keeps_st_columns|].
  intros cols [b ->]. apply keeps_for_each. intros i Hi.
  apply in_seq in Hi. unfold toggle_body.
  apply keeps_bind with (R := fun _ => True).
  - apply keeps_getitem. rewrite length_map, length_seq. lia.
  - intros c _.
    apply keeps_bind with (R := fun _ => True); [apply keeps_col_button|].
    intros pressed _. destruct pressed; [|now apply keeps_ret].
    apply keeps_bind with (R := fun _ => True);
      [apply Hsend|intros; apply keeps_emit].
Qed.

Lemma keeps_system_control : keeps E (fun _ => True) (system_control f ser).
Proof.
  unfold system_control, st_subheader.
  apply keeps_bind with (R := fun _ => True); [apply keeps_bulb_control|].
  intros _ _.
  apply keeps_bind with (R := fun _ => True); [apply keeps_emit|].
  intros _ _.
  apply keeps_bind with (R := fun _ => True);
    [apply Hstatus|intros; apply keeps_monitoring].
Qed.

Lemma keeps_tab_view (sel : str) : keeps E (fun _ => True) (tab_view f ser sel).
Proof.
  unfold tab_view, current_monitoring, st_error.
  destruct (String.eqb sel "Current Monitoring"); [apply keeps_monitoring|].
  destruct (String.eqb sel "System Control"); [apply keeps_system_control|].
  destruct (String.eqb sel "Report and Data Analytics");
    [apply keeps_data_analytics|apply keeps_emit].
Qed.

Lemma keeps_power_control : keeps E (fun _ => True) (power_control ser).
Proof.
  unfold power_control, st_subheader, st_write.
  apply keeps_bind with (R := fun _ => True); [apply keeps_emit|].
  intros _ _.
  apply keeps_bind with (R := fun _ => True); [apply keeps_st_button|].
  intros pressed _. destruct pressed; [|now apply keeps_ret].
  apply keeps_bind with (R := fun _ => True);
    [apply Hsend|intros; apply keeps_emit].
Qed.

Lemma keeps_tab_and_power (sel : str) :
  keeps E (fun _ => True) (tab_view f ser sel ;; power_control ser).
Proof.
  apply keeps_bind with (R := fun _ => True);
    [apply keeps_tab_view|intros; apply keeps_power_control].
Qed.

End Keeps.

(** An exchange raises nothing but [UnicodeDecodeError] and
    [SerialException]. *)
Lemma keeps_send_command (ser : option Serial) (c : str) :
  keeps run_error (fun _ => True) (send_command ser c).
Proof.
  intros w Hw. destruct (send_command ser c w) as [out w1] eqn:Hsend.
  destruct (send_command_frame _ _ _ _ _ Hsend) as (Hd & _).
  cbn [fst snd]. split; [unfold armed in *; now rewrite Hd|].
  destruct out as [a|e]; [exact I|].
  destruct ser as [s|]; [|discriminate Hsend].
  destruct (send_command_broken _ _ _ _ _ Hsend) as [->|[-> _]];
    unfold run_error; auto.
Qed.

(** Without a handle an exchange raises nothing at all. *)
Lemma keeps_send_command_offline (c : str) :
  keeps (fun _ => False) (fun _ => True) (send_command None c).
Proof. intros w Hw. now split. Qed.

Lemma keeps_status_display (ser : option Serial) :
  keeps run_error (fun _ => True) (status_display ser).
Proof.
  intros w Hw. destruct (send_command ser "STATUS" w) as [out w1] eqn:Hsend.
  destruct (keeps_send_command ser "STATUS" w Hw) as [Harm Hres].
  rewrite Hsend in Harm, Hres. cbn [fst snd] in *.
  destruct out as [status|e].
  - rewrite (status_display_rows _ _ _ _ Hsend).
    destruct (truthy status); [|now split].
    cbv zeta. destruct (_ <=? 5)%nat; cbn; (split; [exact Harm|]);
      [exact I|now left].
  - unfold status_display, bind. rewrite Hsend. now split.
Qed.

Lemma keeps_status_display_offline :
  keeps (fun _ => False) (fun _ => True) (status_display None).
Proof.
  intros w Hw.
  rewrite (status_display_rows None w w "Error: No serial connection" eq_refl).
  now split.
Qed.

(** X9: a run of the script can raise only [IndexError] (a status with
    more tokens than columns), [UnicodeDecodeError] (a line that is not
    UTF-8) or [SerialException] (the link failing under a write or a read,
    which [send_command] does not catch): the session state is always
    initialised before it is read, and a reading that is no number is
    caught. *)
Theorem script_exceptions :
  forall (f : str -> option float) (w : World) (e : Exn),
    fst (script f w) = Raise e ->
    e = IndexError \/ e = UnicodeDecodeError \/ e = SerialException.
Proof.
  intros f w e. rewrite script_steps. unfold bind at 1.
  destruct (preamble_returns w) as (w0 & -> & Hd & _).
  cbn [fst snd].
  destruct (keeps_tab_and_power run_error (handle_of w) f
              (keeps_send_command (handle_of w))
              (keeps_status_display (handle_of w))
              (selected w) w0) as [_ Hres].
  { unfold armed. rewrite Hd. discriminate. }
  intros Hraise. rewrite Hraise in Hres. exact Hres.
Qed.

Lemma script_exceptions_witness :
  IndexError = IndexError \/ IndexError = UnicodeDecodeError
  \/ IndexError = SerialException.
Proof.
  apply (script_exceptions plain_decimal
           (fresh 0 [mkReply 3 ("A,B,C,D,E,F" ++ LF)]) IndexError).
  reflexivity.
Defined.

(** The link lost: under the write of the status query the run ends in
    [SerialException] with nothing on the line; under the read, with the
    command and the pause on it. *)
Example script_link_failure :
  let down := set_outages [true] (fresh 0 []) in
  let deaf := set_outages [false; true] (fresh 0 []) in
  fst (script plain_decimal down) = Raise SerialException
  /\ io (snd (script plain_decimal down)) = []
  /\ fst (script plain_decimal deaf) = Raise SerialException
  /\ io (snd (script plain_decimal deaf))
     = [SerialWrite "STATUS"; Sleep 100000000].
Proof. vm_compute. repeat split. Qed.

(** A device unplugged between two runs: the first run has its exchange,
    the second ends in [SerialException] at the write, on the handle the
    cache still gives. *)
Example session_link_lost :
  let w := set_outages [false; false; true]
                       (fresh 0 [mkReply 3 ("ON,OFF,ON,OFF,ON" ++ LF)]) in
  let run := mkRunInput 1 [] None "System Control" in
  let w1 := rerun plain_decimal w run in
  fst (script plain_decimal w) = Ok tt
  /\ conn_cache w1 = Some (Some arduino, [])
  /\ fst (script plain_decimal
            (makeWorld (clock w1 + 1) (rx w1) (open_error w1) None
                       "System Control" (io w1) (conn_cache w1) (data w1) []
                       (outages w1) (data_dtype w1)))
     = Raise SerialException
  /\ io (session plain_decimal w [run; run])
     = [SerialWrite "STATUS"; Sleep 100000000;
        SerialReadline ("ON,OFF,ON,OFF,ON" ++ LF)]
  /\ io (session plain_decimal w [run; run; run])
     = [SerialWrite "STATUS"; Sleep 100000000;
        SerialReadline ("ON,OFF,ON,OFF,ON" ++ LF);
        SerialWrite "STATUS"; Sleep 100000000;
        SerialReadline ""].
Proof. vm_compute. repeat split. Qed.

(** X10: with the null handle a run never raises and never touches the
    line: every command degrades to the error text, which the page
    shows. *)
Theorem offline_run :
  forall (f : str -> option float) (w : World),
    handle_of w = None ->
    fst (script f w) = Ok tt
    /\ io (snd (script f w)) = io w.
Proof.
  intros f w Hnone. split.
  - rewrite script_steps. unfold bind at 1.
    destruct (preamble_returns w) as (w0 & -> & Hd & _).
    cbn [fst snd]. rewrite Hnone.
    destruct (keeps_tab_and_power (fun _ => False) None f
                keeps_send_command_offline keeps_status_display_offline
                (selected w) w0) as [_ Hres].
    { unfold armed. rewrite Hd. discriminate. }
    destruct (fst _) as [[]|e]; [reflexivity|contradiction].
  - now apply script_offline_io.
Qed.

Lemma offline_run_witness :
  fst (script plain_decimal unplugged) = Ok tt
  /\ io (snd (script plain_decimal unplugged)) = io unplugged.
Proof.
  apply (offline_run plain_decimal unplugged). reflexivity.
Defined.

(** X11: when the first run could not open the port, or the cache holds
    the null handle, the whole session stays off the line and the handle
    stays null: there is no reconnection. *)
Theorem offline_session :
  forall (f : str -> option float) (runs : list RunInput) (w : World),
    handle_of w = None ->
    io (session f w runs) = io w
    /\ handle_of (session f w runs) = None.
Proof.
  intros f runs. induction runs as [|i runs IH]; intros w Hnone.
  - now split.
  - cbn [session fold_left].
    assert (Hh : handle_of (rerun f w i) = None)
      by (now rewrite rerun_handle).
    destruct (IH _ Hh) as [Hio Hnext]. split; [|exact Hnext].
    unfold session in Hio. rewrite Hio. unfold rerun.
    set (w0 := makeWorld _ _ _ _ _ _ _ _ _ _ _).
    exact (script_offline_io f w0 Hnone).
Qed.

Lemma offline_session_witness :
  io (session plain_decimal unplugged demo_runs) = io unplugged
  /\ handle_of (session plain_decimal unplugged demo_runs) = None.
Proof.
  apply (offline_session plain_decimal demo_runs unplugged). reflexivity.
Defined.

(** ** The views of the store *)

Lemma bind_ok {A B : Type} (m : M A) (k : A -> M B) (w w1 : World) (a : A) :
  m w = (Ok a, w1) -> bind m k w = k a w1.
Proof. intros H. unfold bind. now rewrite H. Qed.

(** The click seen by a button does not depend on the page. *)
Ltac same_click w :=
  match goal with
  | |- context [was_clicked ?k ?W] =>
    progress change (was_clicked k W) with (was_clicked k w)
  end.

Lemma latest_current (df : DataFrame) (smp : Sample) :
  nth_error (rev (map current (smp :: df))) 0
  = Some (current (last (smp :: df) (mkSample 0 0%float))).
Proof.
  destruct (exists_last (l := smp :: df)) as (older & latest & ->);
    [discriminate|].
  now rewrite map_app, rev_app_distr, last_last.
Qed.

(** The metric and the chart, one after the other. *)
Lemma views_shown (w : World) (df : DataFrame) :
  data w = Some df ->
  (display_current_reading ;; display_current_chart) w
  = (Ok tt, set_page (page w ++ views df)%list w).
Proof.
  intros Hd. destruct w as [t q oe ck sel tr cc d pg]. cbn in Hd. subst d.
  unfold display_current_reading, display_current_chart, iloc_last.
  destruct df as [|smp df].
  - run. now rewrite app_nil_r.
  - unfold bind at 1 2, get_data. cbn [data df_empty negb].
    unfold bind at 1, getitem. rewrite latest_current.
    run. tidy. reflexivity.
Qed.

(** X12: the views never change anything but the page: the latest-value
    view, the chart and the analytics tab leave the store, the clock, the
    line and the cache as they found them, whether they return or raise. *)
Theorem views_render_only :
  renders_only display_current_reading
  /\ renders_only display_current_chart
  /\ renders_only data_analytics.
Proof.
  split; [|split].
  - exact renders_display_current_reading.
  - exact renders_display_current_chart.
  - exact renders_data_analytics.
Qed.

(** ** The "Current Monitoring" section *)

(** X13: a run in which "Read Current" was not clicked makes no exchange
    in the monitoring section: it draws the button and the views of the
    store as it is. *)
Theorem monitoring_idle :
  forall (f : str -> option float) (ser : option Serial) (w : World)
         (df : DataFrame),
    was_clicked "Read Current" w = false ->
    data w = Some df ->
    monitoring f ser w
    = (Ok tt,
       set_page (page w ++
                 Subheader "Current Monitoring"
                 :: Button "Read Current" "Read Current" :: views df)%list w).
Proof.
  intros f ser w df Hidle Hd. unfold monitoring.
  erewrite bind_ok by reflexivity. erewrite bind_ok by reflexivity.
  same_click w. rewrite Hidle.
  erewrite bind_ok by reflexivity.
  rewrite views_shown with (df := df) by exact Hd.
  destruct w as [t q oe ck sel tr cc d pg]. cbn. now rewrite <- !app_assoc.
Qed.

Lemma monitoring_idle_witness :
  monitoring plain_decimal (Some arduino)
    (mkWorld 9 [] None None "Current Monitoring" [] None
             (Some [mkSample 2 0.5%float; mkSample 7 2.625%float]) [])
  = (Ok tt,
     mkWorld 9 [] None None "Current Monitoring" [] None
             (Some [mkSample 2 0.5%float; mkSample 7 2.625%float])
             [Subheader "Current Monitoring";
              Button "Read Current" "Read Current";
              Metric "Current" "2.62 A";
              CurrentChart [mkSample 2 0.5%float; mkSample 7 2.625%float]]).
Proof.
  apply (monitoring_idle
           plain_decimal (Some arduino)
           (mkWorld 9 [] None None "Current Monitoring" [] None
                    (Some [mkSample 2 0.5%float; mkSample 7 2.625%float]) [])
           [mkSample 2 0.5%float; mkSample 7 2.625%float]);
    reflexivity.
Defined.

(** X14: after a click on "Read Current" answered by a number, the views
    of the same run already show it: the store has the new sample at its
    end, the metric shows that reading and the chart has all rows, the new
    one last. *)
Theorem monitoring_read_shows_reading :
  forall (f : str -> option float) (ser : option Serial) (w w1 : World)
         (s : str) (x : float) (df : DataFrame),
    was_clicked "Read Current" w = true ->
    data w = Some df ->
    send_command ser "READ" w = (Ok s, w1) ->
    f s = Some x ->
    monitoring f ser w
    = (Ok tt,
       set_page (page w ++
                 [Subheader "Current Monitoring";
                  Button "Read Current" "Read Current";
                  Metric "Current" (format_2f x ++ " A")%string;
                  CurrentChart (df ++ [mkSample (clock w1) x])])%list
                (set_data (Some (df ++ [mkSample (clock w1) x])%list) w1)).
Proof.
  intros f ser w w1 s x df Hclick Hd Hsend Hf.
  destruct (send_command_frame _ _ _ _ _ Hsend) as (Hd1 & Hp1 & _).
  unfold monitoring.
  erewrite bind_ok by reflexivity. erewrite bind_ok by reflexivity.
  same_click w. rewrite Hclick.
  erewrite (bind_ok (read_current f ser)).
  2:{ unfold read_current.
      erewrite bind_ok
        by (rewrite set_page_twice, send_command_set_page, Hsend;
            reflexivity).
      unfold try_except, py_float. rewrite Hf.
      erewrite bind_ok by reflexivity. erewrite bind_ok by reflexivity.
      erewrite bind_ok
        by (unfold get_frame; cbn [data set_page fst snd]; rewrite Hd1, Hd;
            reflexivity).
      reflexivity. }
  rewrite views_shown with (df := (df ++ [mkSample (clock w1) x])%list)
    by reflexivity.
  replace (views (df ++ [mkSample (clock w1) x])%list)
    with [Metric "Current" (format_2f x ++ " A")%string;
          CurrentChart (df ++ [mkSample (clock w1) x])%list].
  2:{ unfold views. rewrite last_last. now destruct df. }
  destruct w1 as [t q oe ck sel tr cc d pg o dt]. cbn in *. subst pg.
  destruct dt; cbn; now rewrite <- !app_assoc.
Qed.

Lemma monitoring_read_shows_reading_witness :
  monitoring plain_decimal (Some arduino)
    (mkWorld 5 [mkReply 7 ("12.5" ++ LF)] None (Some "Read Current")
             "Current Monitoring" [] None (Some [mkSample 2 0.5%float]) [])
  = (Ok tt,
     mkWorld 100000012 [] None (Some "Read Current") "Current Monitoring"
             [SerialWrite "READ"; Sleep 100000000;
              SerialReadline ("12.5" ++ LF)]
             None
             (Some [mkSample 2 0.5%float; mkSample 100000012 12.5%float])
             [Subheader "Current Monitoring";
              Button "Read Current" "Read Current";
              Metric "Current" "12.50 A";
              CurrentChart [mkSample 2 0.5%float;
                            mkSample 100000012 12.5%float]]).
Proof.
  apply (monitoring_read_shows_reading
           plain_decimal (Some arduino)
           (mkWorld 5 [mkReply 7 ("12.5" ++ LF)] None (Some "Read Current")
                    "Current Monitoring" [] None
                    (Some [mkSample 2 0.5%float]) [])
           (mkWorld 100000012 [] None (Some "Read Current")
                    "Current Monitoring"
                    [SerialWrite "READ"; Sleep 100000000;
                     SerialReadline ("12.5" ++ LF)]
                    None (Some [mkSample 2 0.5%float]) [])
           "12.5" 12.5%float [mkSample 2 0.5%float]);
    reflexivity.
Defined.

(** X15: after a click on "Read Current" answered by something that is no
    number, the run shows the error and then the views of the store as it
    was: the metric still shows the reading before, if there is one. *)
Theorem monitoring_read_invalid_keeps_views :
  forall (f : str -> option float) (ser : option Serial) (w w1 : World)
         (s : str) (df : DataFrame),
    was_clicked "Read Current" w = true ->
    data w = Some df ->
    send_command ser "READ" w = (Ok s, w1) ->
    f s = None ->
    monitoring f ser w
    = (Ok tt,
       set_page (page w ++
                 Subheader "Current Monitoring"
                 :: Button "Read Current" "Read Current"
                 :: ErrorBox ("Invalid current reading: " ++ s)%string
                 :: views df)%list w1).
Proof.
  intros f ser w w1 s df Hclick Hd Hsend Hf.
  destruct (send_command_frame _ _ _ _ _ Hsend) as (Hd1 & Hp1 & _).
  unfold monitoring.
  erewrite bind_ok by reflexivity. erewrite bind_ok by reflexivity.
  same_click w. rewrite Hclick.
  erewrite (bind_ok (read_current f ser)).
  2:{ unfold read_current.
      erewrite bind_ok
        by (rewrite set_page_twice, send_command_set_page, Hsend;
            reflexivity).
      unfold try_except, py_float. rewrite Hf. reflexivity. }
  rewrite views_shown with (df := df)
    by (cbn [data set_page fst snd]; now rewrite Hd1).
  destruct w1 as [t q oe ck sel tr cc d pg]. cbn in *. subst pg.
  now rewrite <- !app_assoc.
Qed.

Lemma monitoring_read_invalid_keeps_views_witness :
  monitoring plain_decimal None
    (mkWorld 5 [] None (Some "Read Current") "Current Monitoring" [] None
             (Some [mkSample 2 0.5%float]) [])
  = (Ok tt,
     mkWorld 5 [] None (Some "Read Current") "Current Monitoring" [] None
             (Some [mkSample 2 0.5%float])
             [Subheader "Current Monitoring";
              Button "Read Current" "Read Current";
              ErrorBox "Invalid current reading: Error: No serial connection";
              Metric "Current" "0.50 A";
              CurrentChart [mkSample 2 0.5%float]]).
Proof.
  apply (monitoring_read_invalid_keeps_views
           plain_decimal None
           (mkWorld 5 [] None (Some "Read Current") "Current Monitoring" []
                    None (Some [mkSample 2 0.5%float]) [])
           (mkWorld 5 [] None (Some "Read Current") "Current Monitoring" []
                    None (Some [mkSample 2 0.5%float]) [])
           "Error: No serial connection" [mkSample 2 0.5%float]);
    reflexivity.
Defined.

(** ** The power button *)

Lemma power_control_idle (ser : option Serial) (w : World) :
  was_clicked "power_button" w = false ->
  power_control ser w
  = (Ok tt,
     set_page (page w ++
               [Subheader "Power Control";
                Button "power_button" "Toggle Power"])%list w).
Proof.
  intros Hidle. unfold power_control.
  erewrite bind_ok by reflexivity. erewrite bind_ok by reflexivity.
  same_click w. rewrite Hidle.
  destruct w as [t q oe ck sel tr cc d pg]. cbn. now rewrite <- !app_assoc.
Qed.

(** X16: the power control of [main] makes an exchange only in the run its
    button was clicked in: then exactly one, of the literal command POWER,
    and it writes the answer, as returned, after "Power Control Response: ";
    in any other run it draws the heading and the button and the world is
    otherwise untouched. *)
Theorem power_control_sends_power :
  forall (ser : option Serial) (w : World),
    (was_clicked "power_button" w = false ->
     power_control ser w
     = (Ok tt,
        set_page (page w ++
                  [Subheader "Power Control";
                   Button "power_button" "Toggle Power"])%list w))
    /\ (forall (resp : str) (w1 : World),
          was_clicked "power_button" w = true ->
          send_command ser "POWER" w = (Ok resp, w1) ->
          power_control ser w
          = (Ok tt,
             set_page (page w ++
                       [Subheader "Power Control";
                        Button "power_button" "Toggle Power";
                        Text ("Power Control Response: " ++ resp)%string])%list
                      w1)).
Proof.
  intros ser w. split; [apply power_control_idle|].
  intros resp w1 Hclick Hsend.
  destruct (send_command_frame _ _ _ _ _ Hsend) as (_ & Hp1 & _).
  unfold power_control.
  erewrite bind_ok by reflexivity. erewrite bind_ok by reflexivity.
  same_click w. rewrite Hclick.
  erewrite bind_ok
    by (rewrite set_page_twice, send_command_set_page, Hsend; reflexivity).
  unfold st_write, emit.
  destruct w1 as [t q oe ck sel tr cc d pg]. cbn in *. subst pg.
  now rewrite <- !app_assoc.
Qed.

Lemma power_control_sends_power_witness :
  power_control (Some arduino)
    (mkWorld 0 [mkReply 4 ("RELAY ON" ++ LF)] None (Some "power_button")
             "Report and Data Analytics" [] None (Some []) [])
  = (Ok tt,
     mkWorld 100000004 [] None (Some "power_button")
             "Report and Data Analytics"
             [SerialWrite "POWER"; Sleep 100000000;
              SerialReadline ("RELAY ON" ++ LF)]
             None (Some [])
             [Subheader "Power Control";
              Button "power_button" "Toggle Power";
              Text "Power Control Response: RELAY ON"]).
Proof.
  exact (proj2 (power_control_sends_power
                  (Some arduino)
                  (mkWorld 0 [mkReply 4 ("RELAY ON" ++ LF)] None
                           (Some "power_button") "Report and Data Analytics"
                           [] None (Some []) []))
               "RELAY ON"
               (mkWorld 100000004 [] None (Some "power_button")
                        "Report and Data Analytics"
                        [SerialWrite "POWER"; Sleep 100000000;
                         SerialReadline ("RELAY ON" ++ LF)]
                        None (Some []) [])
               eq_refl eq_refl).
Defined.

(** ** The status query of every render *)

Lemma emits_nil_io {A : Type} (sc : World -> Prop) (R : A -> Prop) (m : M A)
      (w : World) :
  emits sc [] R m -> sc w -> io (snd (m w)) = io w.
Proof.
  intros H Hw. destruct (H w Hw) as (_ & exs & broken & rest & Hio & Hc & _).
  apply off_the_line in Hc. destruct Hc as (-> & -> & _).
  rewrite Hio. cbn. apply app_nil_r.
Qed.

(** The toggle buttons in a run that none of them started. *)
Lemma bulb_control_idle (ser : option Serial) (w : World) :
  (forall i, (i < 5)%nat ->
             was_clicked ("Button " ++ fmt_int i) w = false) ->
  bulb_control ser w
  = (Ok tt,
     set_page (page w ++
               Subheader "Bulb Control" :: Columns 5
               :: toggle_buttons (S (List.length (page w))) 0 5)%list w).
Proof.
  intros Hidle. unfold bulb_control.
  erewrite bind_ok by reflexivity. erewrite bind_ok by reflexivity.
  unfold range. rewrite toggle_loop_idle.
  2:{ apply Forall_forall. intros j Hin. apply in_seq in Hin.
      split; [lia|]. same_click w. apply Hidle. lia. }
  cbn [page set_page]. rewrite length_app. cbn [List.length].
  rewrite Nat.add_1_r.
  destruct w as [t q oe ck sel tr cc d pg]. cbn. now rewrite <- !app_assoc.
Qed.

(** What the status display does to the line, whatever it shows: one
    exchange, whole unless the link fails. *)
Lemma status_display_trace (s : Serial) (w : World) :
  (exists line : bytes,
      io (snd (status_display (Some s) w))
      = (io w ++ exchange_events "STATUS" line)%list)
  \/ (fst (status_display (Some s) w) = Raise SerialException
      /\ (io (snd (status_display (Some s) w)) = io w
          \/ io (snd (status_display (Some s) w))
             = (io w ++ cut_short (Some "STATUS"))%list)).
Proof.
  destruct (send_command (Some s) "STATUS" w) as [out w1] eqn:Hsend.
  assert (Hwhole : out <> Raise SerialException ->
            exists line : bytes,
              io (snd (status_display (Some s) w))
              = (io w ++ exchange_events "STATUS" line)%list).
  { intros Hout.
    destruct (send_command_trace _ _ _ _ _ Hsend Hout) as (line & Hio).
    exists line. destruct out as [status|e].
    - rewrite (status_display_rows _ _ _ _ Hsend).
      destruct (truthy status); [|exact Hio].
      cbv zeta. destruct (_ <=? 5)%nat; exact Hio.
    - unfold status_display, bind. rewrite Hsend. exact Hio. }
  destruct out as [status|e]; [left; apply Hwhole; discriminate|].
  destruct (send_command_broken _ _ _ _ _ Hsend) as [->|[-> Hio]].
  - left. apply Hwhole. discriminate.
  - right. unfold status_display, bind. rewrite Hsend.
    split; [reflexivity|exact Hio].
Qed.

Lemma system_control_poll (f : str -> option float) (s : Serial) (tab : str)
      (w : World) :
  scene None tab (Some s) w ->
  (exists line : bytes,
      io (snd (system_control f (Some s) w))
      = (io w ++ exchange_events "STATUS" line)%list)
  \/ (fst (system_control f (Some s) w) = Raise SerialException
      /\ (io (snd (system_control f (Some s) w)) = io w
          \/ io (snd (system_control f (Some s) w))
             = (io w ++ cut_short (Some "STATUS"))%list)).
Proof.
  intros Hsc. pose proof Hsc as (Hck & _). unfold system_control.
  erewrite bind_ok
    by (apply bulb_control_idle; intros; unfold was_clicked; now rewrite Hck).
  erewrite bind_ok by reflexivity.
  set (w2 := set_page _ _).
  assert (Hsc2 : scene None tab (Some s) w2)
    by (eapply scene_frame; [| | | |exact Hsc]; reflexivity).
  pose proof (status_display_trace s w2) as Htrace.
  destruct (emits_status_display None tab (Some s) w2 Hsc2) as (Hsc3 & _).
  unfold bind.
  destruct (status_display (Some s) w2) as [[[]|e] w3]; cbn [fst snd] in *.
  - destruct Htrace as [(line & Hio)|[Hraise _]]; [|discriminate Hraise].
    left. exists line.
    rewrite (emits_nil_io _ _ _ w3 (emits_monitoring None tab (Some s) f) Hsc3).
    exact Hio.
  - destruct Htrace as [Hio|[Hraise Hio]]; [now left|now right].
Qed.

(** X18: every run on the "System Control" tab with an open port queries
    the status, also when nothing was clicked: such a run makes exactly one
    exchange, of STATUS, whether the display of the answer then succeeds or
    fails.  The one exception is a failure of the link: the run then ends in
    [SerialException], and on the line is nothing (the write failed) or the
    command and the pause (the read failed). *)
Theorem script_polls_status :
  forall (f : str -> option float) (s : Serial) (w : World),
    handle_of w = Some s ->
    selected w = "System Control" ->
    clicked w = None ->
    (exists line : bytes,
        io (snd (script f w)) = (io w ++ exchange_events "STATUS" line)%list)
    \/ (fst (script f w) = Raise SerialException
        /\ (io (snd (script f w)) = io w
            \/ io (snd (script f w))
               = (io w ++ cut_short (Some "STATUS"))%list)).
Proof.
  intros f s w Hh Hsel Hck.
  destruct (preamble_returns w)
    as (w0 & Hpre & _ & Hio0 & _ & _ & Hck0 & Hsel0 & Hh0).
  assert (Hrun : script f w
                 = (system_control f (Some s) ;; power_control (Some s)) w0).
  { rewrite script_steps. unfold bind at 1. rewrite Hpre.
    cbn [fst snd]. now rewrite Hh, Hsel. }
  rewrite Hrun. clear Hrun Hpre.
  assert (Hsc : scene None "System Control" (Some s) w0)
    by (repeat split; congruence).
  pose proof (system_control_poll f s _ w0 Hsc) as Hpoll.
  destruct (emits_system_control None "System Control" (Some s) f w0 Hsc)
    as ((Hck1 & _) & _).
  unfold bind.
  destruct (system_control f (Some s) w0) as [[[]|e] w1]; cbn [fst snd] in *.
  - destruct Hpoll as [(line & Hio)|[Hraise _]]; [|discriminate Hraise].
    left. exists line.
    rewrite power_control_idle
      by (unfold was_clicked; now rewrite Hck1).
    cbn [snd io set_page]. now rewrite Hio, Hio0.
  - rewrite <- Hio0. destruct Hpoll as [Hio|[Hraise Hio]]; [now left|now right].
Qed.

Lemma script_polls_status_witness :
  (exists line : bytes,
      io (snd (script plain_decimal (fresh 0 [mkReply 3 ("A,B,C,D,E,F" ++ LF)])))
      = ([] ++ exchange_events "STATUS" line)%list)
  \/ (fst (script plain_decimal (fresh 0 [mkReply 3 ("A,B,C,D,E,F" ++ LF)]))
      = Raise SerialException
      /\ (io (snd (script plain_decimal
                     (fresh 0 [mkReply 3 ("A,B,C,D,E,F" ++ LF)]))) = []
          \/ io (snd (script plain_decimal
                        (fresh 0 [mkReply 3 ("A,B,C,D,E,F" ++ LF)])))
             = ([] ++ cut_short (Some "STATUS"))%list)).
Proof.
  apply (script_polls_status plain_decimal arduino
           (fresh 0 [mkReply 3 ("A,B,C,D,E,F" ++ LF)]));
    reflexivity.
Defined.

(** ** Responses are stripped *)

Lemma lstrip_codes_spec (n : nat) :
  forall bs : list N,
    (List.length bs <= n)%nat ->
    (exists p, bs = (p ++ lstrip_codes bs)%list)
    /\ match lstrip_codes bs with
       | b :: _ => ascii_space b = false
       | [] => True
       end.
Proof.
  induction n as [|n IH]; intros bs Hn.
  - destruct bs; [|cbn in Hn; lia]. split; [now exists []|exact I].
  - destruct bs as [|b0 r0]; [split; [now exists []|exact I]|].
    cbn [List.length] in Hn. cbn [lstrip_codes].
    destruct (ascii_space b0) eqn:H0.
    { destruct (IH r0 ltac:(lia)) as [[p Hp] Hhd].
      split; [exists (b0 :: p); cbn; now rewrite <- Hp|exact Hhd]. }
    destruct r0 as [|b1 r1]; [split; [now exists []|exact H0]|].
    cbn [List.length] in Hn.
    destruct (space2 b0 b1).
    { destruct (IH r1 ltac:(lia)) as [[p Hp] Hhd].
      split; [exists (b0 :: b1 :: p); cbn; now rewrite <- Hp|exact Hhd]. }
    destruct r1 as [|b2 r2]; [split; [now exists []|exact H0]|].
    cbn [List.length] in Hn.
    destruct (space3 b0 b1 b2).
    { destruct (IH r2 ltac:(lia)) as [[p Hp] Hhd].
      split; [exists (b0 :: b1 :: b2 :: p); cbn; now rewrite <- Hp|exact Hhd]. }
    split; [now exists []|exact H0].
Qed.

Lemma rstrip_rev_spec (n : nat) :
  forall bs : list N,
    (List.length bs <= n)%nat ->
    (exists p, bs = (p ++ rstrip_rev bs)%list)
    /\ match rstrip_rev bs with
       | b :: _ => ascii_space b = false
       | [] => True
       end.
Proof.
  induction n as [|n IH]; intros bs Hn.
  - destruct bs; [|cbn in Hn; lia]. split; [now exists []|exact I].
  - destruct bs as [|b0 r0]; [split; [now exists []|exact I]|].
    cbn [List.length] in Hn. cbn [rstrip_rev].
    destruct (ascii_space b0) eqn:H0.
    { destruct (IH r0 ltac:(lia)) as [[p Hp] Hhd].
      split; [exists (b0 :: p); cbn; now rewrite <- Hp|exact Hhd]. }
    destruct r0 as [|b1 r1]; [split; [now exists []|exact H0]|].
    cbn [List.length] in Hn.
    destruct (space2 b1 b0).
    { destruct (IH r1 ltac:(lia)) as [[p Hp] Hhd].
      split; [exists (b0 :: b1 :: p); cbn; now rewrite <- Hp|exact Hhd]. }
    destruct r1 as [|b2 r2]; [split; [now exists []|exact H0]|].
    cbn [List.length] in Hn.
    destruct (space3 b2 b1 b0).
    { destruct (IH r2 ltac:(lia)) as [[p Hp] Hhd].
      split; [exists (b0 :: b1 :: b2 :: p); cbn; now rewrite <- Hp|exact Hhd]. }
    split; [now exists []|exact H0].
Qed.

(** The bytes of a stripped string: a stretch of the bytes of the string
    with no ASCII white space at either end. *)
Lemma strip_spec (s : str) :
  exists (front kept back : list N),
    codes s = (front ++ kept ++ back)%list
    /\ strip s = of_codes kept
    /\ match kept with b :: _ => ascii_space b = false | [] => True end
    /\ match rev kept with b :: _ => ascii_space b = false | [] => True end.
Proof.
  unfold strip.
  destruct (lstrip_codes_spec _ (codes s) (le_n _)) as [[front Hfront] Hhd].
  set (L := lstrip_codes (codes s)) in *.
  destruct (rstrip_rev_spec _ (rev L) (le_n _)) as [[p Hp] Hlast].
  set (R := rstrip_rev (rev L)) in *.
  assert (HL : L = (rev R ++ rev p)%list).
  { rewrite <- (rev_involutive L), Hp, rev_app_distr. reflexivity. }
  exists front, (rev R), (rev p). split; [|split; [|split]].
  - now rewrite Hfront, HL.
  - reflexivity.
  - rewrite HL in Hhd. destruct (rev R); [exact I|exact Hhd].
  - rewrite rev_involutive. exact Hlast.
Qed.

(** X19: a response never begins or ends with ASCII white space: the line
    terminator the device sends, and any blank around the text, is gone
    before the response is parsed, split or shown. *)
Theorem send_command_response_stripped :
  forall (s : Serial) (command : str) (w w1 : World) (resp : str),
    send_command (Some s) command w = (Ok resp, w1) ->
    (forall (c : ascii) (rest : string),
        resp = String c rest -> ascii_space (N_of_ascii c) = false)
    /\ (forall (front : string) (c : ascii),
          resp = (front ++ String c EmptyString)%string ->
          ascii_space (N_of_ascii c) = false).
Proof.
  intros s command w w1 resp Hsend.
  assert (Hresp : exists text, resp = strip text).
  { destruct (send_command_answer _ _ _ _ _ Hsend) as (line & text & _ & ->).
    now exists text. }
  destruct Hresp as [text ->].
  destruct (strip_spec text)
    as (front & kept & back & Hcodes & -> & Hfirst & Hlast).
  assert (Hbytes : Forall (fun b => N_of_ascii (ascii_of_N b) = b) kept).
  { assert (Hall : Forall (fun b => N_of_ascii (ascii_of_N b) = b)
                          (codes text)).
    { unfold codes. apply Forall_forall. intros b Hb.
      apply in_map_iff in Hb. destruct Hb as (a & <- & _).
      now rewrite ascii_N_embedding. }
    rewrite Hcodes in Hall. apply Forall_app in Hall. destruct Hall as [_ Hall].
    apply Forall_app in Hall. now destruct Hall. }
  split.
  - intros c rest Heq. destruct kept as [|b kept]; [discriminate Heq|].
    cbn in Heq. injection Heq as <- _.
    inversion Hbytes as [|? ? Hb _]; subst. now rewrite Hb.
  - intros pre c Heq.
    apply (f_equal list_ascii_of_string) in Heq.
    unfold of_codes in Heq.
    rewrite list_ascii_of_string_of_list_ascii in Heq.
    assert (Happ : list_ascii_of_string (pre ++ String c EmptyString)
                   = (list_ascii_of_string pre ++ [c])%list).
    { clear. induction pre as [|a pre IH]; [reflexivity|].
      cbn. now rewrite IH. }
    rewrite Happ in Heq. clear Happ.
    apply (f_equal (@rev ascii)) in Heq.
    rewrite rev_app_distr, <- map_rev in Heq. cbn in Heq.
    destruct (rev kept) as [|b rk] eqn:Hrk; [discriminate Heq|].
    cbn in Heq. injection Heq as <- _.
    assert (Hin : In b kept) by (apply in_rev; rewrite Hrk; now left).
    rewrite Forall_forall in Hbytes. now rewrite (Hbytes b Hin).
Qed.

Lemma send_command_response_stripped_witness :
  (forall (c : ascii) (rest : string),
      "ON,OFF" = String c rest -> ascii_space (N_of_ascii c) = false)
  /\ (forall (front : string) (c : ascii),
        "ON,OFF" = (front ++ String c EmptyString)%string ->
        ascii_space (N_of_ascii c) = false).
Proof.
  apply (send_command_response_stripped
           arduino "STATUS"
           (fresh 0 [mkReply 3 ("  ON,OFF " ++ String "013"%char LF)])
           (snd (send_command (Some arduino) "STATUS"
                   (fresh 0 [mkReply 3 ("  ON,OFF " ++ String "013"%char LF)])))
           "ON,OFF").
  reflexivity.
Defined.

(** ** A status with too many tokens ends the run *)

(** X21: on the "System Control" tab, when the answer to STATUS holds five
    commas or more, a click on "Read Current" is lost: the run ends in
    [IndexError] at the status display, before the monitoring section, so
    READ is never sent (the exchange of STATUS is the last thing on the
    line) and the store is left as it was. *)
Theorem status_failure_blocks_read :
  forall (f : str -> option float) (ser : option Serial) (w w1 : World)
         (status : str),
    clicked w = Some "Read Current" ->
    send_command ser "STATUS" w = (Ok status, w1) ->
    (5 <= count_char "," status)%nat ->
    fst (system_control f ser w) = Raise IndexError
    /\ io (snd (system_control f ser w)) = io w1
    /\ data (snd (system_control f ser w)) = data w.
Proof.
  intros f ser w w1 status Hck Hsend Hmany.
  destruct (send_command_frame _ _ _ _ _ Hsend) as (Hd1 & _).
  unfold system_control.
  erewrite bind_ok
    by (apply bulb_control_idle; intros; unfold was_clicked; now rewrite Hck).
  erewrite bind_ok by reflexivity.
  unfold bind.
  erewrite status_display_rows
    by (rewrite set_page_twice, send_command_set_page, Hsend; reflexivity).
  destruct status as [|c status]; [cbn in Hmany; lia|].
  cbn [truthy]. cbv zeta. rewrite split_length.
  destruct (Nat.leb_spec (S (count_char "," (String c status))) 5); [lia|].
  cbn [fst snd io data set_page]. repeat split. exact Hd1.
Qed.

Lemma status_failure_blocks_read_witness :
  fst (system_control plain_decimal (Some arduino)
         (mkWorld 0 [mkReply 3 ("A,B,C,D,E,F" ++ LF); mkReply 3 ("12.5" ++ LF)]
                  None (Some "Read Current") "System Control" [] None
                  (Some []) []))
  = Raise IndexError
  /\ io (snd (system_control plain_decimal (Some arduino)
         (mkWorld 0 [mkReply 3 ("A,B,C,D,E,F" ++ LF); mkReply 3 ("12.5" ++ LF)]
                  None (Some "Read Current") "System Control" [] None
                  (Some []) [])))
     = [SerialWrite "STATUS"; Sleep 100000000;
        SerialReadline ("A,B,C,D,E,F" ++ LF)]
  /\ data (snd (system_control plain_decimal (Some arduino)
         (mkWorld 0 [mkReply 3 ("A,B,C,D,E,F" ++ LF); mkReply 3 ("12.5" ++ LF)]
                  None (Some "Read Current") "System Control" [] None
                  (Some []) [])))
     = Some [].
Proof.
  apply (status_failure_blocks_read
           plain_decimal (Some arduino)
           (mkWorld 0 [mkReply 3 ("A,B,C,D,E,F" ++ LF);
                       mkReply 3 ("12.5" ++ LF)]
                    None (Some "Read Current") "System Control" [] None
                    (Some []) [])
           (mkWorld 100000003 [mkReply 3 ("12.5" ++ LF)]
                    None (Some "Read Current") "System Control"
                    [SerialWrite "STATUS"; Sleep 100000000;
                     SerialReadline ("A,B,C,D,E,F" ++ LF)]
                    None (Some []) [])
           "A,B,C,D,E,F").
  - reflexivity.
  - reflexivity.
  - cbn. lia.
Defined.
